(** * tresor-import: document classification and parsing dispatch

    A shallow embedding of [src/index.js] (implementation selection, parse
    dispatch, result filter, top-level promise) and of the error classes of
    [src/errors], followed by the properties of the specification that were
    checked against it.

    Conventions of the embedding
    - a JavaScript [undefined] in a slot that may hold a value is [None];
    - a function that may throw returns a [Completion];
    - calls that leave the module (detect and parse capabilities of an
      implementation, the CSV helper, [JSON.parse]) are recorded in a call
      log, so that "was never invoked" can be stated;
    - a promise is represented by the state it finally settles in. *)

From Stdlib Require Import String Ascii List ZArith Bool Arith Lia Permutation.
Import ListNotations.
Local Open Scope string_scope.
Local Open Scope list_scope.

Set Implicit Arguments.

(** ** Strings *)

(** [String.prototype.toLowerCase] on code units below 256, which is what a
    [string] holds here: A-Z (65-90), the letters 192-214 and 216-222 move up
    by 32; every other code unit, the multiplication sign 215 and the sharp s
    223 among them, stays.  No code unit outside A-Z lowercases to a letter
    of "pdf" or "csv". *)
Definition lowerChar (c : ascii) : ascii :=
  let n := nat_of_ascii c in
  if (((65 <=? n) && (n <=? 90))
      || ((192 <=? n) && (n <=? 214))
      || ((216 <=? n) && (n <=? 222)))%nat
  then ascii_of_nat (n + 32) else c.

Fixpoint toLowerCase (s : string) : string :=
  match s with
  | EmptyString => EmptyString
  | String c rest => String (lowerChar c) (toLowerCase rest)
  end.

(** [s.split(sep)] for a one-character separator: never the empty list. *)
Fixpoint split (sep : ascii) (s : string) : list string :=
  match s with
  | EmptyString => [EmptyString]
  | String c rest =>
      if Ascii.eqb c sep then EmptyString :: split sep rest
      else match split sep rest with
           | seg :: segs => String c seg :: segs
           | [] => [String c EmptyString]
           end
  end.

(** [Array.prototype.pop] as used on the result of [split]: the last item. *)
Definition pop (segments : list string) : string := last segments EmptyString.

(** [Array.prototype.includes] on an array of strings. *)
Definition includes (haystack : list string) (needle : string) : bool :=
  existsb (String.eqb needle) haystack.

Definition newline : string := String (ascii_of_nat 10) EmptyString.

(** ** Error classes (src/errors) *)

Inductive ErrorClass : Type :=
| PlainError                       (* Error, TypeError, ... *)
| ParqetErrorClass                 (* the base class, no [data] *)
| ParqetDocumentErrorClass
| ParqetParserErrorClass
| ParqetActivityValidationErrorClass.

(** A thrown value: its class, its message and [data.status] when the
    constructor sets [data]. *)
Record JsError : Type := mkError {
  errorClass : ErrorClass;
  message : string;
  dataStatus : option Z
}.

(** [new ParqetDocumentError(message, fileName, status)] *)
Definition ParqetDocumentError (msg fileName : string) (status : Z) : JsError :=
  mkError ParqetDocumentErrorClass
          (msg ++ newline ++ "File: " ++ fileName) (Some status).

(** [new ParqetParserError(message, input, status)] *)
Definition ParqetParserError (msg input : string) (status : Z) : JsError :=
  mkError ParqetParserErrorClass
          (msg ++ newline ++ "Input: " ++ input) (Some status).

(** [new ParqetActivityValidationError(message, activity, status)]; the
    second argument is the activity already rendered by [JSON.stringify]. *)
Definition ParqetActivityValidationError (msg activityJson : string)
    (status : Z) : JsError :=
  mkError ParqetActivityValidationErrorClass
          (msg ++ newline ++ "Activity: " ++ activityJson) (Some status).

(** [error instanceof ParqetError] *)
Definition instanceofParqetError (e : JsError) : bool :=
  match errorClass e with
  | PlainError => false
  | _ => true
  end.

Definition isDocumentError (e : JsError) : bool :=
  match errorClass e with
  | ParqetDocumentErrorClass => true
  | _ => false
  end.

(** ** Completions: a value returned or an error thrown *)

Inductive Completion (A : Type) : Type :=
| Return (a : A)
| Throw (e : JsError).
Arguments Return {A} a.
Arguments Throw {A} e.

(** ** Data model *)

Definition Page : Type := list string.

Module ParseResult.
(** What [parsePages] returns: [{activities, status}].  An element of
    [activities] may be [undefined]; either property may be missing. *)
Record t (Activity : Type) : Type := make {
  activities : option (list (option Activity));
  status : option Z
}.
Arguments make {Activity} activities status.
End ParseResult.

(** The argument of [parsePages]: the pages as extracted (pdf) or the parsed
    JSON of the single CSV page. *)
Inductive ParseInput (Json : Type) : Type :=
| PdfPages (pages : list Page)
| CsvRecords (records : Json).
Arguments PdfPages {Json} pages.
Arguments CsvRecords {Json} records.

(** An implementation: the two capabilities of a broker or app module. *)
Record Implementation (Activity Json : Type) : Type := mkImplementation {
  canParseDocument : list Page -> string -> bool;
  parsePages : ParseInput Json -> Completion (ParseResult.t Activity)
}.

(** What [parseActivitiesFromPages] hands back and what ends up in the
    [activities] field of the outcome: the array literal of line 75 (or of
    the catch handler), or the object returned by [filterResultActivities]. *)
Inductive ActivitiesValue (Activity : Type) : Type :=
| ArrayValue (items : list (option Activity))
| ResultObject (result : ParseResult.t Activity).
Arguments ArrayValue {Activity} items.
Arguments ResultObject {Activity} result.

(** The [length] property: a number on an array, [undefined] on the object
    [{activities, status}]. *)
Definition lengthOf {Activity} (v : ActivitiesValue Activity) : option nat :=
  match v with
  | ArrayValue items => Some (length items)
  | ResultObject _ => None
  end.

(** [!!x] for [x] a number or [undefined]. *)
Definition truthy (x : option nat) : bool :=
  match x with
  | Some n => negb (n =? 0)%nat
  | None => false
  end.

Record File : Type := mkFile { name : string }.

Record ParsedFile : Type := mkParsedFile {
  pages : list Page;
  extension : string
}.

Module Outcome.
Record t (Activity : Type) : Type := make {
  file : string;
  activities : ActivitiesValue Activity;
  status : Z;
  successful : bool
}.
Arguments make {Activity} file activities status successful.
End Outcome.

(** The state a promise settles in. *)
Inductive Promise (A : Type) : Type :=
| Pending
| Fulfilled (value : A)
| Rejected (reason : JsError).
Arguments Pending {A}.
Arguments Fulfilled {A} value.
Arguments Rejected {A} reason.

(** ** What lies outside the repository sources

    The registry is built from [./brokers] and [./apps]; [csvLinesToJSON]
    comes from [@/helper]; the file is read by [FileReader] and [pdfjs]. *)
Class Environment : Type := {
  Activity : Type;
  Json : Type;
  allImplementations : list (Implementation Activity Json);
  csvLinesToJSON : Page -> Completion string;
  JSONparse : string -> Completion Json;
  (** the pages with which the [onload] handler of [parseFile] resolves, for
      a file and its lowercased extension; [Pending] when the handler never
      reaches a [resolve], [Rejected] when the executor throws *)
  readPages : File -> string -> Promise (list Page)
}.

(** ** Calls that leave the module, and the monad that logs them *)

Inductive Call `{Environment} : Type :=
| CallCanParseDocument (impl : Implementation Activity Json)
    (pages : list Page) (extension : string)
| CallParsePages (impl : Implementation Activity Json)
    (input : ParseInput Json)
| CallCsvLinesToJSON (page : Page)
| CallJSONparse (text : string).

Definition isParsePagesCall `{Environment} (c : Call) : bool :=
  match c with
  | CallParsePages _ _ => true
  | _ => false
  end.

(** A computation: the calls it made, in order, and how it completed. *)
Definition M `{Environment} (A : Type) : Type := (list Call * Completion A)%type.

Definition ret `{Environment} {A} (a : A) : M A := ([], Return a).

Definition throw `{Environment} {A} (e : JsError) : M A := ([], Throw e).

Definition bind `{Environment} {A B} (m : M A) (k : A -> M B) : M B :=
  match m with
  | (log, Return a) => let (log', c) := k a in (log ++ log', c)
  | (log, Throw e) => (log, Throw e)
  end.

Notation "x <- m ;; k" := (bind m (fun x => k))
  (at level 61, m at next level, right associativity).

(** An outside call: logged, then completed as the callee completes. *)
Definition perform `{Environment} {A} (c : Call) (result : Completion A) : M A :=
  ([c], result).

(** [array.filter(callback)] with a callback that makes outside calls. *)
Fixpoint filterM `{Environment} {A} (callback : A -> M bool) (array : list A)
  : M (list A) :=
  match array with
  | [] => ret []
  | x :: rest =>
      keep <- callback x ;;
      kept <- filterM callback rest ;;
      ret (if keep then x :: kept else kept)
  end.

(** ** src/index.js *)

(** line 9 *)
Definition acceptedFileTypes : list string := ["pdf"; "csv"].

(** [impl.canParseDocument(pages, extension)], the callback of line 38 *)
Definition detect `{Environment} (pages : list Page) (extension : string)
    (impl : Implementation Activity Json) : M bool :=
  perform (CallCanParseDocument impl pages extension)
          (Return (canParseDocument impl pages extension)).

(** [findImplementation], lines 27-57 (lines 19-20 are the stale header of
    an earlier two-argument version and carry no body).  The two length tests
    and [implementations[0]] are the three shapes of the filtered array. *)
Definition findImplementation `{Environment} (pages : list Page)
    (fileName extension : string) : M (Implementation Activity Json) :=
  if negb (includes acceptedFileTypes (toLowerCase extension)) then
    throw (ParqetDocumentError
             ("Invalid document. Unsupported file type '" ++ extension
              ++ "'. Extension must be one of ["
              ++ String.concat "," acceptedFileTypes ++ "].")
             fileName 4)
  else
    implementations <- filterM (detect pages extension) allImplementations ;;
    match implementations with
    | [] =>
        throw (ParqetDocumentError
                 "Invalid document. Failed to find parser implementation for document."
                 fileName 1)
    | _ :: _ :: _ =>
        throw (ParqetDocumentError
                 "Invalid document. Found multiple parser implementations for document."
                 fileName 2)
    | [impl] => ret impl
    end.

(** [activity === undefined] *)
Definition isUndefined {A} (activity : option A) : bool :=
  match activity with
  | None => true
  | Some _ => false
  end.

(** [result.status === 0] *)
Definition statusIsZero (status : option Z) : bool :=
  match status with
  | Some s => (s =? 0)%Z
  | None => false
  end.

(** [filterResultActivities], lines 174-195.  The source updates [result] in
    place and returns it; the returned value is modelled. *)
Definition filterResultActivities {A} (result : ParseResult.t A)
  : ParseResult.t A :=
  match ParseResult.activities result with
  | Some activities =>
      if (0 <? length (filter isUndefined activities))%nat then
        ParseResult.make None (Some 6%Z)
      else
        let numberOfActivities := length activities in
        ParseResult.make
          (if (numberOfActivities =? 0)%nat then None else Some activities)
          (if (numberOfActivities =? 0)%nat
              && statusIsZero (ParseResult.status result)
           then Some 5%Z else ParseResult.status result)
  | None => result
  end.

(** [parseActivitiesFromPages], lines 65-86.  [pages[0]] is bound where the
    emptiness test has passed. *)
Definition parseActivitiesFromPages `{Environment} (pages : list Page)
    (fileName extension : string) : M (ActivitiesValue Activity) :=
  match pages with
  | [] =>
      throw (ParqetDocumentError "Invalid document. Document is empty."
                                 fileName 1)
  | firstPage :: _ =>
      impl <- findImplementation pages fileName extension ;;
      if (extension =? "pdf")%string then
        result <- perform (CallParsePages impl (PdfPages pages))
                          (parsePages impl (PdfPages pages)) ;;
        ret (ResultObject (filterResultActivities result))
      else if (extension =? "csv")%string then
        text <- perform (CallCsvLinesToJSON firstPage)
                        (csvLinesToJSON firstPage) ;;
        records <- perform (CallJSONparse text) (JSONparse text) ;;
        result <- perform (CallParsePages impl (CsvRecords records))
                          (parsePages impl (CsvRecords records)) ;;
        ret (ResultObject (filterResultActivities result))
      else
        ret (ArrayValue [])
  end.

(** [parseFile], lines 89-142: the extension is the lowercased last
    dot-separated piece of the file name; reading is left to [readPages]. *)
Definition parseFile `{Environment} (file : File) : Promise ParsedFile :=
  let extension := toLowerCase (pop (split "." (name file))) in
  match readPages file extension with
  | Fulfilled pages => Fulfilled (mkParsedFile pages extension)
  | Pending => Pending
  | Rejected reason => Rejected reason
  end.

(** [resolve(value)] and a throw of the executor, on the promise under
    construction: only the first settlement counts. *)
Definition resolve {A} (value : A) (cell : Promise A) : Promise A :=
  match cell with
  | Pending => Fulfilled value
  | settled => settled
  end.

Definition reject {A} (reason : JsError) (cell : Promise A) : Promise A :=
  match cell with
  | Pending => Rejected reason
  | settled => settled
  end.

(** [promise.then(callback)]: the callback runs, in a later job, when and
    only when [promise] fulfils; an error it throws rejects the promise that
    [then] returned and reaches no enclosing [try].  [S] is the state the
    callback can write to. *)
Definition thenDo {A S} (promise : Promise A)
    (callback : A -> S -> Completion unit * S) (s : S) : Promise unit * S :=
  match promise with
  | Fulfilled value =>
      match callback value s with
      | (Return u, s') => (Fulfilled u, s')
      | (Throw e, s') => (Rejected e, s')
      end
  | Pending => (Pending, s)
  | Rejected reason => (Rejected reason, s)
  end.

(** The callback of lines 147-160. *)
Definition onParsed `{Environment} (file : File) (parsedFile : ParsedFile)
    (cell : Promise (Outcome.t Activity))
  : Completion unit * Promise (Outcome.t Activity) :=
  match snd (parseActivitiesFromPages (pages parsedFile) (name file)
                                      (extension parsedFile)) with
  | Return activities =>
      (Return tt,
       resolve (Outcome.make (name file) activities 0%Z
                             (truthy (lengthOf activities))) cell)
  | Throw e => (Throw e, cell)
  end.

(** The catch handler of lines 161-170; [error.data.status] throws a
    TypeError on an error without [data]. *)
Definition onCaught `{Environment} (file : File) (error : JsError)
    (cell : Promise (Outcome.t Activity))
  : Completion unit * Promise (Outcome.t Activity) :=
  if instanceofParqetError error then
    match dataStatus error with
    | Some status =>
        (Return tt,
         resolve (Outcome.make (name file) (ArrayValue []) status false) cell)
    | None =>
        (Throw (mkError PlainError
                        "Cannot read properties of undefined (reading 'status')"
                        None), cell)
    end
  else (Return tt, cell).

(** The default export, lines 144-172.  Inside [try], [parseFile(file)] only
    builds a promise (an executor that throws rejects it) and [then] only
    registers the callback, so the block completes normally. *)
Definition process `{Environment} (file : File) : Promise (Outcome.t Activity) :=
  let tryBlock : Completion (Promise ParsedFile) := Return (parseFile file) in
  match tryBlock with
  | Return parsed => snd (thenDo parsed (onParsed file) Pending)
  | Throw error =>
      match onCaught file error Pending with
      | (Return _, cell) => cell
      | (Throw e, cell) => reject e cell
      end
  end.

(** ** Reading a file: the [onload] handler and [parsePageToContent]

    A string is read as a sequence of code units below 256.  The reader, the
    PDF library and the platform flags are outside the repository. *)

(** The white space and line terminators [String.prototype.trim] removes,
    among code units below 256: TAB, LF, VT, FF, CR, SP and NBSP. *)
Definition isWhiteSpace (c : ascii) : bool :=
  let n := nat_of_ascii c in
  (((9 <=? n) && (n <=? 13)) || (n =? 32) || (n =? 160))%nat.

Fixpoint trimStart (s : string) : string :=
  match s with
  | EmptyString => EmptyString
  | String c rest => if isWhiteSpace c then trimStart rest else s
  end.

Fixpoint trimEnd (s : string) : string :=
  match s with
  | EmptyString => EmptyString
  | String c rest =>
      match trimEnd rest with
      | EmptyString => if isWhiteSpace c then EmptyString else String c EmptyString
      | kept => String c kept
      end
  end.

(** [s.trim()] *)
Definition trim (s : string) : string := trimEnd (trimStart s).

(** A page of a PDF document: [getTextContent()] settles with the [str] of
    each item of the content. *)
Record PDFPageProxy : Type := mkPage {
  getTextContent : Promise (list string)
}.

(** [parsePageToContent], lines 201-210: the fragments trimmed, the empty
    ones dropped.  The promise of the async function follows the one it
    awaits. *)
Definition parsePageToContent (page : PDFPageProxy) : Promise (list string) :=
  match getTextContent page with
  | Fulfilled items =>
      Fulfilled (filter (fun item => (0 <? String.length item)%nat)
                        (map trim items))
  | Pending => Pending
  | Rejected reason => Rejected reason
  end.

Record PDFDocumentProxy : Type := mkDocument {
  numPages : nat;
  getPage : nat -> Promise PDFPageProxy
}.

(** [e.target.result] of the load event. *)
Inductive LoadResult (ArrayBuffer : Type) : Type :=
| StringResult (text : string)
| BufferResult (buffer : ArrayBuffer).
Arguments StringResult {ArrayBuffer} text.
Arguments BufferResult {ArrayBuffer} buffer.

Inductive ReadMode : Type := AsArrayBuffer | AsText.

Class Browser : Type := {
  ArrayBuffer : Type;
  isBrowser : bool;
  isNode : bool;
  (** what the load event delivers after [readAsArrayBuffer] or
      [readAsText]; [None] when no load event is fired *)
  loadEvent : File -> ReadMode -> option (LoadResult ArrayBuffer);
  (** [pdfjs.getDocument(new Uint8Array(buffer)).promise] *)
  getDocument : ArrayBuffer -> Promise PDFDocumentProxy
}.

(** [await promise] inside the [onload] handler, whose own promise nobody
    observes: the handler goes on when the awaited promise fulfils and is
    over, without a further effect, when it rejects or never settles. *)
Definition await {A B} (promise : Promise A) (continue : A -> option B)
  : option B :=
  match promise with
  | Fulfilled value => continue value
  | _ => None
  end.

(** The loop of lines 116-121 over the page indexes still to visit. *)
Fixpoint readPdfPages (pdfDocument : PDFDocumentProxy) (pageIndexes : list nat)
    (pages : list Page) : option (list Page) :=
  match pageIndexes with
  | [] => Some pages
  | pageIndex :: rest =>
      await (getPage pdfDocument (pageIndex + 1)) (fun page =>
      await (parsePageToContent page) (fun parsedContent =>
      readPdfPages pdfDocument rest (pages ++ [parsedContent])))
  end.

(** The [onload] handler of lines 94-134, acting on the promise that
    [parseFile] returns. *)
Definition onload `{Browser} (extension : string)
    (result : LoadResult ArrayBuffer) (cell : Promise ParsedFile)
  : Promise ParsedFile :=
  let cell :=
    if negb isBrowser || isNode then resolve (mkParsedFile [] extension) cell
    else cell in
  let collected : option (list Page) :=
    if (extension =? "pdf")%string then
      match result with
      | StringResult _ => None       (* Expected ArrayBuffer - got string *)
      | BufferResult buffer =>
          await (getDocument buffer) (fun pdfDocument =>
          readPdfPages pdfDocument (seq 0 (numPages pdfDocument)) [])
      end
    else
      match result with
      | StringResult text => Some [split (ascii_of_nat 10) (trim text)]
      | BufferResult _ => None       (* Expected target to be a string *)
      end in
  match collected with
  | Some pages => resolve (mkParsedFile pages extension) cell
  | None => cell
  end.

(** The executor of [parseFile] behind the computation of the extension
    (lines 92-141), on a platform that has a [FileReader]: the reader is
    started in the mode of lines 136-140 and the handler runs when the load
    event comes.  Without a [FileReader] line 92 throws and the promise of
    [parseFile] is rejected; that platform is not described by [Browser]. *)
Definition readWithFileReader `{Browser} (file : File) (extension : string)
  : Promise (list Page) :=
  let mode := if (extension =? "pdf")%string then AsArrayBuffer else AsText in
  match loadEvent file mode with
  | Some result =>
      match onload extension result Pending with
      | Fulfilled parsedFile => Fulfilled (pages parsedFile)
      | Pending => Pending
      | Rejected reason => Rejected reason
      end
  | None => Pending
  end.

(** An environment whose files are read through the reader above. *)
Definition readingThrough (B : Browser) (E : Environment) : Environment :=
  {| Activity := @Activity E;
     Json := @Json E;
     allImplementations := @allImplementations E;
     csvLinesToJSON := @csvLinesToJSON E;
     JSONparse := @JSONparse E;
     readPages := @readWithFileReader B |}.

(** The same environment with another registry. *)
Definition withRegistry (E : Environment)
    (registry : list (Implementation (@Activity E) (@Json E))) : Environment :=
  {| Activity := @Activity E;
     Json := @Json E;
     allImplementations := registry;
     csvLinesToJSON := @csvLinesToJSON E;
     JSONparse := @JSONparse E;
     readPages := @readPages E |}.

(** ** Sample registry and files, used to run the model *)

(** An implementation with a fixed detect answer and a fixed parse. *)
Definition fixedImplementation (accepts : bool)
    (parsed : Completion (ParseResult.t string))
  : Implementation string (list string) :=
  mkImplementation (fun _ _ => accepts) (fun _ => parsed).

(** Activities are strings, a CSV page is joined and split again, and every
    file is read as the pages [read]. *)
Definition sampleEnvironment
    (registry : list (Implementation string (list string)))
    (read : list Page) : Environment :=
  {| Activity := string;
     Json := list string;
     allImplementations := registry;
     csvLinesToJSON := fun page => Return (String.concat ";" page);
     JSONparse := fun text => Return (split ";" text);
     readPages := fun _ _ => Fulfilled read |}.

Definition samplePages : list Page := [["Depot"; "Kauf"]].

Definition threeActivities : ParseResult.t string :=
  ParseResult.make (Some [Some "buy"; Some "sell"; Some "dividend"]) (Some 0%Z).

Definition holedActivities : ParseResult.t string :=
  ParseResult.make (Some [Some "buy"; None; Some "sell"]) (Some 0%Z).

Definition noActivities : ParseResult.t string :=
  ParseResult.make (Some []) (Some 0%Z).

Definition parserFailure : JsError :=
  ParqetParserError "Could not parse amount" "12,x" 3.

Definition decliningImplementation : Implementation string (list string) :=
  fixedImplementation false (Throw parserFailure).

(** A registry in which exactly one entry accepts every document. *)
Definition registryWith (parsed : Completion (ParseResult.t string))
  : list (Implementation string (list string)) :=
  [fixedImplementation true parsed; decliningImplementation].

(** A registry in which two entries accept every document. *)
Definition overlappingRegistry : list (Implementation string (list string)) :=
  [fixedImplementation true (Return threeActivities);
   fixedImplementation true (Return noActivities)].

(** A document of two pages with blank and padded fragments. *)
Definition sampleDocument : PDFDocumentProxy :=
  mkDocument 2 (fun pageNumber =>
    Fulfilled (mkPage (Fulfilled
      (if (pageNumber =? 1)%nat then [" Depot "; "  "; "Kauf"]
       else ["Seite 2"; ""])))).

(** A document whose second page never arrives. *)
Definition stalledDocument : PDFDocumentProxy :=
  mkDocument 2 (fun pageNumber =>
    if (pageNumber =? 2)%nat then Pending
    else Fulfilled (mkPage (Fulfilled ["Depot"]))).

(** A platform on which every read fires its load event with [content] and
    every buffer opens as [document]. *)
Definition sampleBrowser (inBrowser : bool) (content : string)
    (document : PDFDocumentProxy) : Browser :=
  {| ArrayBuffer := string;
     isBrowser := inBrowser;
     isNode := negb inBrowser;
     loadEvent := fun _ mode =>
       Some (match mode with
             | AsText => StringResult content
             | AsArrayBuffer => BufferResult content
             end);
     getDocument := fun _ => Fulfilled document |}.

Definition sampleCsvContent : string :=
  "  Datum;Typ" ++ newline ++ "1.1.;Kauf" ++ newline ++ newline.

(** An environment whose CSV helper throws on every page. *)
Definition brokenCsvEnvironment
    (registry : list (Implementation string (list string))) : Environment :=
  {| Activity := string;
     Json := list string;
     allImplementations := registry;
     csvLinesToJSON := fun _ =>
       Throw (mkError PlainError "Cannot read properties of undefined" None);
     JSONparse := fun text => Return (split ";" text);
     readPages := fun _ _ => Fulfilled samplePages |}.

(** * Properties *)

Unset Implicit Arguments.

(** ** The result filter *)

Section ResultFilter.
Context {A : Type}.
Implicit Types (result : ParseResult.t A) (items : list (option A)).

Lemma undefined_count_positive items :
  In None items <-> (0 <? length (filter isUndefined items))%nat = true.
Proof.
  rewrite Nat.ltb_lt. split.
  - intros Hin.
    assert (Hf : In None (filter isUndefined items))
      by (apply filter_In; split; [exact Hin | reflexivity]).
    destruct (filter isUndefined items); [destruct Hf | simpl; lia].
  - intros Hlen.
    destruct (filter isUndefined items) as [|x rest] eqn:Hf;
      [simpl in Hlen; lia |].
    assert (Hx : In x (filter isUndefined items)) by (rewrite Hf; left; reflexivity).
    apply filter_In in Hx. destruct Hx as [Hin Hu].
    destruct x; [discriminate Hu | exact Hin].
Qed.

Lemma undefined_count_zero items :
  ~ In None items -> (0 <? length (filter isUndefined items))%nat = false.
Proof.
  intros Hnot.
  destruct (0 <? length (filter isUndefined items))%nat eqn:E; [| reflexivity].
  apply undefined_count_positive in E. contradiction.
Qed.

(** Without an activities array the filter is the identity. *)
Lemma filter_without_activities result :
  ParseResult.activities result = None ->
  filterResultActivities result = result.
Proof.
  intros Hnone. unfold filterResultActivities. now rewrite Hnone.
Qed.

(** What comes out of the filter has either no activities or a non-empty
    array without undefined elements. *)
Lemma filter_output_shape result :
  match ParseResult.activities (filterResultActivities result) with
  | None => True
  | Some items => items <> [] /\ ~ In None items
  end.
Proof.
  unfold filterResultActivities.
  destruct (ParseResult.activities result) as [items|] eqn:Hact.
  - destruct (0 <? length (filter isUndefined items))%nat eqn:Hundef; simpl.
    + exact I.
    + destruct (length items =? 0)%nat eqn:Hlen; [exact I |].
      split.
      * intros ->. discriminate Hlen.
      * intros Hin. apply undefined_count_positive in Hin. congruence.
  - now rewrite Hact.
Qed.

(** A non-empty array without undefined elements passes unchanged. *)
Lemma filter_keeps_valid result items :
  ParseResult.activities result = Some items ->
  items <> [] -> ~ In None items ->
  filterResultActivities result = result.
Proof.
  intros Hact Hne Hvalid. unfold filterResultActivities. rewrite Hact.
  rewrite (undefined_count_zero _ Hvalid).
  destruct items as [|x rest]; [contradiction | simpl].
  destruct result as [acts st]. simpl in *. now subst.
Qed.

(** The first branch of the filter (lines 176-184). *)
Lemma filter_undefined_branch result items :
  ParseResult.activities result = Some items ->
  (0 <? length (filter isUndefined items))%nat = true ->
  filterResultActivities result = ParseResult.make None (Some 6%Z).
Proof.
  intros Hact Hundef. unfold filterResultActivities. now rewrite Hact, Hundef.
Qed.

(** C7 (invalid-activity poisoning): when the activities array is present
    and holds at least one undefined element, the filter returns a result
    with activities absent and status 6, whatever the other elements and
    the incoming status are. *)
Theorem filter_poisons_on_undefined result items :
  ParseResult.activities result = Some items ->
  In None items ->
  filterResultActivities result = ParseResult.make None (Some 6%Z).
Proof.
  intros Hact Hin. apply (filter_undefined_branch result items Hact).
  apply undefined_count_positive. exact Hin.
Qed.

(** C8 (empty-but-valid parse): when the activities array is present and
    empty, the filter returns activities absent; the status becomes 5 if
    it was 0 and is kept as it was otherwise. *)
Theorem filter_empty_activities result :
  ParseResult.activities result = Some [] ->
  ParseResult.activities (filterResultActivities result) = None
  /\ (ParseResult.status result = Some 0%Z ->
      ParseResult.status (filterResultActivities result) = Some 5%Z)
  /\ (ParseResult.status result <> Some 0%Z ->
      ParseResult.status (filterResultActivities result)
      = ParseResult.status result).
Proof.
  intros Hact. unfold filterResultActivities. rewrite Hact. simpl.
  repeat split.
  - intros Hzero. now rewrite Hzero.
  - intros Hnonzero.
    destruct (ParseResult.status result) as [s|]; simpl; [| reflexivity].
    destruct (Z.eqb_spec s 0); [subst; contradiction | reflexivity].
Qed.

(** C9 (filter idempotence): filtering the output of the filter changes
    nothing. *)
Theorem filter_idempotent result :
  filterResultActivities (filterResultActivities result)
  = filterResultActivities result.
Proof.
  pose proof (filter_output_shape result) as Hshape.
  destruct (ParseResult.activities (filterResultActivities result))
    as [items|] eqn:Hout.
  - destruct Hshape as [Hne Hvalid].
    exact (filter_keeps_valid _ _ Hout Hne Hvalid).
  - exact (filter_without_activities _ Hout).
Qed.

End ResultFilter.

Lemma filter_poisons_on_undefined_witness :
  filterResultActivities holedActivities = ParseResult.make None (Some 6%Z).
Proof.
  apply (filter_poisons_on_undefined holedActivities
           [Some "buy"; None; Some "sell"]).
  - reflexivity.
  - simpl. right. left. reflexivity.
Defined.

Lemma filter_empty_activities_witness :
  ParseResult.activities (filterResultActivities noActivities) = None
  /\ ParseResult.status (filterResultActivities noActivities) = Some 5%Z.
Proof.
  destruct (filter_empty_activities noActivities eq_refl) as [Habsent [Hzero _]].
  split; [exact Habsent | exact (Hzero eq_refl)].
Defined.

(** A status the implementation had set survives the filter on an empty
    array. *)
Example filter_empty_keeps_status_7 :
  filterResultActivities (ParseResult.make (Some (@nil (option string))) (Some 7%Z))
  = ParseResult.make None (Some 7%Z).
Proof. reflexivity. Qed.

(** ** Implementation selection *)

Lemma includes_acceptedFileTypes (s : string) :
  includes acceptedFileTypes s = true <-> s = "pdf" \/ s = "csv".
Proof.
  unfold includes, acceptedFileTypes. simpl.
  rewrite !orb_true_iff, !String.eqb_eq. intuition discriminate.
Qed.

Lemma not_accepted_lowercase (extension : string) :
  toLowerCase extension <> "pdf" -> toLowerCase extension <> "csv" ->
  includes acceptedFileTypes (toLowerCase extension) = false.
Proof.
  intros Hpdf Hcsv.
  destruct (includes acceptedFileTypes (toLowerCase extension)) eqn:E;
    [| reflexivity].
  apply includes_acceptedFileTypes in E. tauto.
Qed.

Section Selection.
Context `{Environment}.
Implicit Types (pages : list Page) (fileName extension : string)
         (impl : Implementation Activity Json).

(** The registry entries whose detect capability accepts the document. *)
Local Abbreviation matching pages extension :=
  (filter (fun impl => canParseDocument impl pages extension)
          allImplementations).

(** The filter of line 38 asks every registry entry once, in order, and
    keeps those that answer true. *)
Lemma filterM_detect pages extension registry :
  filterM (detect pages extension) registry
  = (map (fun impl => CallCanParseDocument impl pages extension) registry,
     Return (filter (fun impl => canParseDocument impl pages extension)
                    registry)).
Proof.
  induction registry as [|impl rest IH]; [reflexivity |].
  simpl. rewrite IH. unfold detect, perform, bind, ret. simpl.
  rewrite app_nil_r. reflexivity.
Qed.

(** Behind the extension gate the outcome is decided by the number of
    matching entries alone. *)
Lemma findImplementation_behind_gate pages fileName extension :
  includes acceptedFileTypes (toLowerCase extension) = true ->
  findImplementation pages fileName extension
  = (map (fun impl => CallCanParseDocument impl pages extension)
         allImplementations,
     match matching pages extension with
     | [] =>
         Throw (ParqetDocumentError
                  "Invalid document. Failed to find parser implementation for document."
                  fileName 1)
     | _ :: _ :: _ =>
         Throw (ParqetDocumentError
                  "Invalid document. Found multiple parser implementations for document."
                  fileName 2)
     | [impl] => Return impl
     end).
Proof.
  intros Hgate. unfold findImplementation. rewrite Hgate. simpl.
  rewrite filterM_detect. unfold bind, throw, ret.
  destruct (matching pages extension) as [|first [|second others]];
    rewrite app_nil_r; reflexivity.
Qed.

(** Selection makes no parse call. *)
Lemma findImplementation_never_parses pages fileName extension :
  existsb isParsePagesCall (fst (findImplementation pages fileName extension))
  = false.
Proof.
  destruct (includes acceptedFileTypes (toLowerCase extension)) eqn:Hgate.
  - rewrite (findImplementation_behind_gate _ _ _ Hgate). simpl.
    induction allImplementations as [|impl rest IH]; [reflexivity | exact IH].
  - unfold findImplementation. rewrite Hgate. reflexivity.
Qed.

(** With pairwise distinct registry entries, "exactly one entry accepts"
    can be said without the filter: one entry accepts and every other one
    declines. *)
Lemma matching_unique pages extension impl :
  NoDup allImplementations ->
  In impl allImplementations ->
  canParseDocument impl pages extension = true ->
  (forall other, In other allImplementations -> other <> impl ->
                 canParseDocument other pages extension = false) ->
  matching pages extension = [impl].
Proof.
  induction allImplementations as [|head rest IH];
    intros Hnodup Hin Haccepts Hothers; [destruct Hin |].
  inversion Hnodup as [|? ? Hfresh Hrest]; subst.
  assert (Hnone : forall l, (forall x, In x l -> x <> impl ->
                        canParseDocument x pages extension = false) ->
                   ~ In impl l ->
                   filter (fun i => canParseDocument i pages extension) l = []).
  { induction l as [|x l IHl]; intros Hall Hnotin; [reflexivity |].
    simpl. rewrite (Hall x (or_introl eq_refl)).
    - apply IHl; [intros y Hy; apply Hall; right; exact Hy |].
      intros Hy. apply Hnotin. right. exact Hy.
    - intros ->. apply Hnotin. left. reflexivity. }
  simpl. destruct Hin as [-> | Hin].
  - rewrite Haccepts. f_equal.
    apply Hnone; [| exact Hfresh].
    intros x Hx. apply Hothers. right. exact Hx.
  - assert (Hne : head <> impl) by (intros ->; contradiction).
    rewrite (Hothers head (or_introl eq_refl) Hne).
    apply IH; [exact Hrest | exact Hin | exact Haccepts |].
    intros x Hx. apply Hothers. right. exact Hx.
Qed.

(** C5 (selection totality): for an accepted extension, findImplementation
    returns the single registry entry whose canParseDocument accepts the
    document when exactly one does, throws a document error with status 1
    when none does and one with status 2 when more than one does; whenever
    it returns, exactly one entry matched. *)
Theorem findImplementation_selection_totality pages fileName extension :
  includes acceptedFileTypes (toLowerCase extension) = true ->
  (forall impl, matching pages extension = [impl] ->
     snd (findImplementation pages fileName extension) = Return impl)
  /\ (matching pages extension = [] ->
      exists e, snd (findImplementation pages fileName extension) = Throw e
                /\ isDocumentError e = true /\ dataStatus e = Some 1%Z)
  /\ ((1 < length (matching pages extension))%nat ->
      exists e, snd (findImplementation pages fileName extension) = Throw e
                /\ isDocumentError e = true /\ dataStatus e = Some 2%Z)
  /\ (forall impl,
        snd (findImplementation pages fileName extension) = Return impl ->
        matching pages extension = [impl]).
Proof.
  intros Hgate. rewrite (findImplementation_behind_gate _ fileName _ Hgate).
  simpl. repeat split.
  - intros impl ->. reflexivity.
  - intros ->. eexists. repeat split; reflexivity.
  - intros Hmany.
    destruct (matching pages extension) as [|first [|second others]];
      simpl in Hmany; try lia.
    eexists. repeat split; reflexivity.
  - intros impl Hret.
    destruct (matching pages extension) as [|first [|second others]];
      try discriminate Hret.
    now inversion Hret.
Qed.

(** C6 (extension gate): for an extension whose lowercase form is neither
    "pdf" nor "csv", findImplementation throws a document error with
    status 4 whatever the pages are, and its call log is empty: no detect
    capability has been asked. *)
Theorem findImplementation_extension_gate pages fileName extension :
  toLowerCase extension <> "pdf" ->
  toLowerCase extension <> "csv" ->
  exists e,
    findImplementation pages fileName extension = ([], Throw e)
    /\ isDocumentError e = true /\ dataStatus e = Some 4%Z.
Proof.
  intros Hpdf Hcsv. unfold findImplementation.
  rewrite (not_accepted_lowercase _ Hpdf Hcsv). simpl.
  eexists. repeat split; reflexivity.
Qed.

End Selection.

Lemma findImplementation_selection_totality_witness :
  snd (@findImplementation
         (sampleEnvironment (registryWith (Return threeActivities)) samplePages)
         samplePages "statement.pdf" "pdf")
  = Return (fixedImplementation true (Return threeActivities)).
Proof.
  apply (proj1 (@findImplementation_selection_totality
                  (sampleEnvironment (registryWith (Return threeActivities))
                                     samplePages)
                  samplePages "statement.pdf" "pdf" eq_refl)).
  reflexivity.
Defined.

(** Two accepting entries: status 2; none: status 1. *)
Example findImplementation_ambiguous :
  snd (@findImplementation (sampleEnvironment overlappingRegistry samplePages)
         samplePages "statement.csv" "csv")
  = Throw (ParqetDocumentError
             "Invalid document. Found multiple parser implementations for document."
             "statement.csv" 2).
Proof. reflexivity. Qed.

Example findImplementation_none :
  snd (@findImplementation (sampleEnvironment [decliningImplementation] samplePages)
         samplePages "statement.pdf" "pdf")
  = Throw (ParqetDocumentError
             "Invalid document. Failed to find parser implementation for document."
             "statement.pdf" 1).
Proof. reflexivity. Qed.

Lemma findImplementation_extension_gate_witness :
  exists e,
    @findImplementation (sampleEnvironment overlappingRegistry samplePages)
      samplePages "notes.txt" "txt" = ([], Throw e)
    /\ isDocumentError e = true /\ dataStatus e = Some 4%Z.
Proof.
  apply (@findImplementation_extension_gate
           (sampleEnvironment overlappingRegistry samplePages)
           samplePages "notes.txt" "txt").
  - simpl. discriminate.
  - simpl. discriminate.
Defined.

(** ** Parse dispatch *)

Section Dispatch.
Context `{Environment}.
Implicit Types (pages : list Page) (fileName extension : string)
         (impl : Implementation Activity Json).

Local Abbreviation matching pages extension :=
  (filter (fun impl => canParseDocument impl pages extension)
          allImplementations).

(** An extension that is neither "pdf" nor "csv" as written takes neither
    branch of lines 77-83: after selection nothing more is called and the
    array of line 75 is returned. *)
Lemma parseActivities_outside_branches pages fileName extension :
  pages <> [] -> extension <> "pdf" -> extension <> "csv" ->
  parseActivitiesFromPages pages fileName extension
  = (fst (findImplementation pages fileName extension),
     match snd (findImplementation pages fileName extension) with
     | Return _ => Return (ArrayValue [])
     | Throw e => Throw e
     end).
Proof.
  intros Hpages Hpdf Hcsv.
  destruct pages as [|firstPage rest]; [contradiction |].
  unfold parseActivitiesFromPages.
  apply String.eqb_neq in Hpdf. apply String.eqb_neq in Hcsv.
  rewrite Hpdf, Hcsv.
  destruct (findImplementation (firstPage :: rest) fileName extension)
    as [log [impl | e]]; simpl; [rewrite app_nil_r |]; reflexivity.
Qed.

(** The parse a selected implementation is asked for: on the pages for
    "pdf", on the parsed JSON of the first page for "csv". *)
Lemma parseActivities_dispatch pages fileName extension impl result :
  pages <> [] ->
  matching pages extension = [impl] ->
  (extension = "pdf" /\ parsePages impl (PdfPages pages) = Return result)
  \/ (extension = "csv"
      /\ exists text records,
           csvLinesToJSON (hd [] pages) = Return text
           /\ JSONparse text = Return records
           /\ parsePages impl (CsvRecords records) = Return result) ->
  snd (parseActivitiesFromPages pages fileName extension)
  = Return (ResultObject (filterResultActivities result)).
Proof.
  intros Hpages Hone Hparse.
  destruct pages as [|firstPage rest]; [contradiction |].
  unfold parseActivitiesFromPages.
  assert (Hgate : includes acceptedFileTypes (toLowerCase extension) = true)
    by (destruct Hparse as [[-> _] | [-> _]]; reflexivity).
  rewrite (findImplementation_behind_gate _ fileName _ Hgate), Hone.
  destruct Hparse as [[-> Hpdf] | [-> (text & records & Htext & Hjson & Hcsv)]].
  - simpl. unfold perform. rewrite Hpdf. reflexivity.
  - simpl in Htext. simpl. unfold perform, bind.
    rewrite Htext, Hjson, Hcsv. reflexivity.
Qed.

(** Whatever is returned is the array of line 75 or a filtered result. *)
Lemma parseActivities_value_shape pages fileName extension v :
  snd (parseActivitiesFromPages pages fileName extension) = Return v ->
  (v = ArrayValue [] /\ extension <> "pdf" /\ extension <> "csv")
  \/ exists result, v = ResultObject (filterResultActivities result).
Proof.
  destruct pages as [|firstPage rest]; [discriminate |].
  unfold parseActivitiesFromPages.
  destruct (findImplementation (firstPage :: rest) fileName extension)
    as [log [impl | e]]; [| discriminate].
  unfold bind, perform, ret.
  destruct (String.eqb_spec extension "pdf") as [Hpdf | Hpdf].
  - destruct (parsePages impl (PdfPages (firstPage :: rest))) as [result | e];
      simpl; [| discriminate].
    intros [= <-]. right. now exists result.
  - destruct (String.eqb_spec extension "csv") as [Hcsv | Hcsv].
    + destruct (csvLinesToJSON firstPage) as [text | e]; simpl; [| discriminate].
      destruct (JSONparse text) as [records | e]; simpl; [| discriminate].
      destruct (parsePages impl (CsvRecords records)) as [result | e];
        simpl; [| discriminate].
      intros [= <-]. right. now exists result.
    + simpl. intros [= <-]. left. repeat split; assumption.
Qed.

(** C10 (case gap between gate and dispatch), amended: for non-empty pages
    and an extension whose lowercase form is "pdf" or "csv" but which is not
    written in lowercase, parseActivitiesFromPages passes the extension gate
    (an error it throws is the status 1 or 2 of a failed selection, never
    status 4) and never calls parsePages; when findImplementation selects an
    implementation the run takes neither dispatch branch and returns the
    empty array of line 75; when selection fails, its error is the error of
    the run. *)
Theorem parseActivities_case_gap pages fileName extension :
  pages <> [] ->
  toLowerCase extension = "pdf" \/ toLowerCase extension = "csv" ->
  extension <> toLowerCase extension ->
  (forall e,
      snd (parseActivitiesFromPages pages fileName extension) = Throw e ->
      dataStatus e = Some 1%Z \/ dataStatus e = Some 2%Z)
  /\ (forall impl,
        snd (findImplementation pages fileName extension) = Return impl ->
        snd (parseActivitiesFromPages pages fileName extension)
        = Return (ArrayValue []))
  /\ existsb isParsePagesCall
       (fst (parseActivitiesFromPages pages fileName extension)) = false
  /\ (forall e,
        snd (findImplementation pages fileName extension) = Throw e ->
        snd (parseActivitiesFromPages pages fileName extension) = Throw e).
Proof.
  intros Hpages Hlower Hcase.
  assert (Hpdf : extension <> "pdf")
    by (intros ->; apply Hcase; reflexivity).
  assert (Hcsv : extension <> "csv")
    by (intros ->; apply Hcase; reflexivity).
  rewrite (parseActivities_outside_branches _ fileName _ Hpages Hpdf Hcsv).
  simpl. repeat split.
  - apply includes_acceptedFileTypes in Hlower.
    rewrite (findImplementation_behind_gate _ fileName _ Hlower). simpl.
    destruct (matching pages extension) as [|first [|second others]];
      intros e [= <-]; [left | right]; reflexivity.
  - intros impl ->. reflexivity.
  - apply findImplementation_never_parses.
  - intros e ->. reflexivity.
Qed.

End Dispatch.

Lemma parseActivities_case_gap_witness :
  snd (@parseActivitiesFromPages
         (sampleEnvironment (registryWith (Throw parserFailure)) samplePages)
         samplePages "statement.PDF" "PDF")
  = Return (ArrayValue [])
  /\ existsb isParsePagesCall
       (fst (@parseActivitiesFromPages
               (sampleEnvironment (registryWith (Throw parserFailure))
                                  samplePages)
               samplePages "statement.PDF" "PDF")) = false.
Proof.
  destruct (@parseActivities_case_gap
              (sampleEnvironment (registryWith (Throw parserFailure))
                                 samplePages)
              samplePages "statement.PDF" "PDF")
    as [_ [Hreturns [Hlog _]]].
  - discriminate.
  - left. reflexivity.
  - simpl. discriminate.
  - split; [| exact Hlog].
    apply (Hreturns (fixedImplementation true (Throw parserFailure))).
    reflexivity.
Defined.

(** C10 as first worded - the empty array for every non-empty pages and
    every such extension - fails where no registry entry accepts: the
    spelling "PDF" passes the gate and selection throws status 1. *)
Lemma parseActivities_case_gap_counterexample :
  ~ (forall (E : Environment) (pages : list Page) (fileName extension : string),
        pages <> [] ->
        toLowerCase extension = "pdf" \/ toLowerCase extension = "csv" ->
        extension <> toLowerCase extension ->
        snd (@parseActivitiesFromPages E pages fileName extension)
        = Return (ArrayValue [])).
Proof.
  intros Hclaim.
  specialize (Hclaim (sampleEnvironment [decliningImplementation] samplePages)
                     samplePages "statement.PDF" "PDF").
  simpl in Hclaim.
  assert (Hrun : @Throw (ActivitiesValue string)
                   (ParqetDocumentError
                      "Invalid document. Failed to find parser implementation for document."
                      "statement.PDF" 1)
                 = Return (ArrayValue [])).
  { apply Hclaim.
    - discriminate.
    - left. reflexivity.
    - discriminate. }
  discriminate Hrun.
Qed.

(** The same spelling with two accepting entries: status 2. *)
Example parseActivities_case_gap_ambiguous :
  snd (@parseActivitiesFromPages
         (sampleEnvironment overlappingRegistry samplePages)
         samplePages "statement.Csv" "Csv")
  = Throw (ParqetDocumentError
             "Invalid document. Found multiple parser implementations for document."
             "statement.Csv" 2).
Proof. reflexivity. Qed.

(** With the lowercase spelling the same registry is asked to parse, and its
    parser error comes out. *)
Example parseActivities_lowercase_parses :
  snd (@parseActivitiesFromPages
         (sampleEnvironment (registryWith (Throw parserFailure)) samplePages)
         samplePages "statement.pdf" "pdf")
  = Throw parserFailure.
Proof. reflexivity. Qed.

(** ** The top-level promise *)

Lemma lowerChar_idempotent (c : ascii) : lowerChar (lowerChar c) = lowerChar c.
Proof.
  destruct c as [[] [] [] [] [] [] [] []]; reflexivity.
Qed.

Lemma toLowerCase_idempotent (s : string) :
  toLowerCase (toLowerCase s) = toLowerCase s.
Proof.
  induction s as [|c rest IH]; [reflexivity |].
  simpl. now rewrite lowerChar_idempotent, IH.
Qed.

Section Pipeline.
Context `{Environment}.
Implicit Types (file : File) (parsedFile : ParsedFile)
         (impl : Implementation Activity Json).

Local Abbreviation matching pages extension :=
  (filter (fun impl => canParseDocument impl pages extension)
          allImplementations).

(** The extension [parseFile] hands on is in lowercase. *)
Lemma parseFile_extension_lowercase file parsedFile :
  parseFile file = Fulfilled parsedFile ->
  toLowerCase (extension parsedFile) = extension parsedFile.
Proof.
  unfold parseFile.
  destruct (readPages file _) as [|read|reason]; try discriminate.
  intros [= <-]. simpl. apply toLowerCase_idempotent.
Qed.

(** A return of parseActivitiesFromPages means the gate was passed. *)
Lemma parseActivities_return_passed_gate pages fileName extension v :
  snd (parseActivitiesFromPages pages fileName extension) = Return v ->
  includes acceptedFileTypes (toLowerCase extension) = true.
Proof.
  destruct pages as [|firstPage rest]; [discriminate |].
  destruct (includes acceptedFileTypes (toLowerCase extension)) eqn:Hgate;
    [reflexivity |].
  unfold parseActivitiesFromPages, findImplementation.
  rewrite Hgate. discriminate.
Qed.

(** The promise of the default export, by cases: [resolve] is reached only
    when [parseFile] fulfils and parseActivitiesFromPages returns. *)
Lemma process_cases file :
  process file
  = match parseFile file with
    | Fulfilled parsedFile =>
        match snd (parseActivitiesFromPages (pages parsedFile) (name file)
                                            (extension parsedFile)) with
        | Return activities =>
            Fulfilled (Outcome.make (name file) activities 0%Z
                                    (truthy (lengthOf activities)))
        | Throw _ => Pending
        end
    | _ => Pending
    end.
Proof.
  unfold process, thenDo, onParsed.
  destruct (parseFile file) as [|parsedFile|reason]; try reflexivity.
  destruct (snd (parseActivitiesFromPages _ _ _)); reflexivity.
Qed.

(** The promise is never rejected. *)
Lemma process_never_rejected file reason : process file <> Rejected reason.
Proof.
  rewrite process_cases.
  destruct (parseFile file) as [|parsedFile|r]; try discriminate.
  destruct (snd (parseActivitiesFromPages _ _ _)); discriminate.
Qed.

(** Every outcome the promise resolves with carries status 0, is marked
    unsuccessful, and holds in [activities] the object returned by the
    filter. *)
Lemma process_fulfilled_shape file outcome :
  process file = Fulfilled outcome ->
  Outcome.file outcome = name file
  /\ Outcome.status outcome = 0%Z
  /\ Outcome.successful outcome = false
  /\ exists result,
       Outcome.activities outcome = ResultObject (filterResultActivities result).
Proof.
  rewrite process_cases.
  destruct (parseFile file) as [|parsedFile|r] eqn:Hparsed; try discriminate.
  destruct (snd (parseActivitiesFromPages _ _ _)) as [v|e] eqn:Hrun;
    [| discriminate].
  intros [= <-]. simpl.
  pose proof (parseActivities_return_passed_gate _ _ _ _ Hrun) as Hgate.
  rewrite (parseFile_extension_lowercase _ _ Hparsed) in Hgate.
  apply includes_acceptedFileTypes in Hgate.
  destruct (parseActivities_value_shape _ _ _ _ Hrun)
    as [(_ & Hpdf & Hcsv) | [result ->]]; [tauto |].
  repeat split. now exists result.
Qed.

(** C1 (failure paths of the top-level promise), as the code has it: when
    parseFile fulfils and parseActivitiesFromPages then throws - an
    unsupported extension, no or several implementations, an empty document,
    a parser error - the promise of the default export never settles: it is
    left pending instead of resolving with a status-coded outcome. *)
Theorem process_failure_leaves_pending file parsedFile e :
  parseFile file = Fulfilled parsedFile ->
  snd (parseActivitiesFromPages (pages parsedFile) (name file)
                                (extension parsedFile)) = Throw e ->
  process file = Pending.
Proof.
  intros Hparsed Hthrown. rewrite process_cases, Hparsed, Hthrown. reflexivity.
Qed.

(** C2 (successful parse), as the code has it: for a file with an accepted
    extension whose non-empty pages are matched by exactly one
    implementation and whose parse yields a non-empty array of defined
    activities, the outcome has status 0, but [successful] is false and
    [activities] holds the whole parse result, not its activity array. *)
Theorem process_valid_parse_unsuccessful file pages extension impl result items :
  parseFile file = Fulfilled (mkParsedFile pages extension) ->
  pages <> [] ->
  matching pages extension = [impl] ->
  (extension = "pdf" /\ parsePages impl (PdfPages pages) = Return result)
  \/ (extension = "csv"
      /\ exists text records,
           csvLinesToJSON (hd [] pages) = Return text
           /\ JSONparse text = Return records
           /\ parsePages impl (CsvRecords records) = Return result) ->
  ParseResult.activities result = Some items ->
  items <> [] -> ~ In None items ->
  process file
  = Fulfilled (Outcome.make (name file) (ResultObject result) 0%Z false).
Proof.
  intros Hparsed Hpages Hone Hparse Hact Hne Hvalid.
  rewrite process_cases, Hparsed. simpl.
  rewrite (parseActivities_dispatch _ (name file) _ _ _ Hpages Hone Hparse).
  rewrite (filter_keeps_valid _ _ Hact Hne Hvalid). reflexivity.
Qed.

(** C3 (undefined activity, end to end), as the code has it: for a file
    matched by exactly one implementation whose parse yields an array with
    an undefined element, the outcome has successful = false, but its status
    is 0 and [activities] holds the filtered result, in which the status 6
    is buried. *)
Theorem process_holed_parse_status_zero file pages extension impl result items :
  parseFile file = Fulfilled (mkParsedFile pages extension) ->
  pages <> [] ->
  matching pages extension = [impl] ->
  (extension = "pdf" /\ parsePages impl (PdfPages pages) = Return result)
  \/ (extension = "csv"
      /\ exists text records,
           csvLinesToJSON (hd [] pages) = Return text
           /\ JSONparse text = Return records
           /\ parsePages impl (CsvRecords records) = Return result) ->
  ParseResult.activities result = Some items ->
  In None items ->
  process file
  = Fulfilled (Outcome.make (name file)
                 (ResultObject (ParseResult.make None (Some 6%Z))) 0%Z false).
Proof.
  intros Hparsed Hpages Hone Hparse Hact Hin.
  rewrite process_cases, Hparsed. simpl.
  rewrite (parseActivities_dispatch _ (name file) _ _ _ Hpages Hone Hparse).
  apply undefined_count_positive in Hin.
  rewrite (filter_undefined_branch _ _ Hact Hin). reflexivity.
Qed.

(** C4 (status invariant), as the code has it: every outcome the promise
    resolves with has status 0 and a present [activities] field, the object
    returned by the filter, whatever status that object carries. *)
Theorem process_status_always_zero file outcome :
  process file = Fulfilled outcome ->
  Outcome.status outcome = 0%Z
  /\ exists result,
       Outcome.activities outcome = ResultObject (filterResultActivities result).
Proof.
  intros Hdone.
  destruct (process_fulfilled_shape _ _ Hdone) as (_ & Hstatus & _ & Hact).
  split; assumption.
Qed.

End Pipeline.

(** *** The pipeline on sample files *)

(** A text file: the status 4 error is thrown inside the callback of [then]
    and the promise stays pending. *)
Lemma process_failure_leaves_pending_witness :
  @process (sampleEnvironment (registryWith (Return threeActivities)) samplePages)
           (mkFile "notes.txt") = Pending.
Proof.
  apply (@process_failure_leaves_pending
           (sampleEnvironment (registryWith (Return threeActivities)) samplePages)
           (mkFile "notes.txt") (mkParsedFile samplePages "txt")
           (ParqetDocumentError
              "Invalid document. Unsupported file type 'txt'. Extension must be one of [pdf,csv]."
              "notes.txt" 4)).
  - reflexivity.
  - reflexivity.
Defined.

(** The other failure paths end the same way: no implementation, several
    implementations, an empty document, a parser error. *)
Example process_no_implementation_pending :
  @process (sampleEnvironment [decliningImplementation] samplePages)
           (mkFile "statement.pdf") = Pending.
Proof. reflexivity. Qed.

Example process_ambiguous_pending :
  @process (sampleEnvironment overlappingRegistry samplePages)
           (mkFile "statement.csv") = Pending.
Proof. reflexivity. Qed.

Example process_empty_document_pending :
  @process (sampleEnvironment (registryWith (Return threeActivities)) [])
           (mkFile "statement.pdf") = Pending.
Proof. reflexivity. Qed.

Example process_parser_error_pending :
  @process (sampleEnvironment (registryWith (Throw parserFailure)) samplePages)
           (mkFile "statement.pdf") = Pending.
Proof. reflexivity. Qed.

(** Had the catch handler been reached with the error of the text file, it
    would have resolved with that status and an empty array. *)
Example onCaught_resolves_with_status :
  @onCaught (sampleEnvironment [] samplePages) (mkFile "notes.txt")
            (ParqetDocumentError "Invalid document." "notes.txt" 4) Pending
  = (Return tt,
     Fulfilled (Outcome.make "notes.txt" (ArrayValue []) 4%Z false)).
Proof. reflexivity. Qed.

(** Three valid activities from the single matching implementation. *)
Lemma process_valid_parse_unsuccessful_witness :
  @process (sampleEnvironment (registryWith (Return threeActivities)) samplePages)
           (mkFile "statement.csv")
  = Fulfilled (Outcome.make "statement.csv" (ResultObject threeActivities)
                            0%Z false).
Proof.
  apply (@process_valid_parse_unsuccessful
           (sampleEnvironment (registryWith (Return threeActivities)) samplePages)
           (mkFile "statement.csv") samplePages "csv"
           (fixedImplementation true (Return threeActivities)) threeActivities
           [Some "buy"; Some "sell"; Some "dividend"]).
  - reflexivity.
  - discriminate.
  - reflexivity.
  - right. split; [reflexivity |].
    exists "Depot;Kauf", ["Depot"; "Kauf"]. repeat split; reflexivity.
  - reflexivity.
  - discriminate.
  - simpl. intros [Hx | [Hx | [Hx | []]]]; discriminate Hx.
Defined.

(** An activity array with a hole from the single matching implementation. *)
Lemma process_holed_parse_status_zero_witness :
  @process (sampleEnvironment (registryWith (Return holedActivities)) samplePages)
           (mkFile "statement.pdf")
  = Fulfilled (Outcome.make "statement.pdf"
                 (ResultObject (ParseResult.make None (Some 6%Z))) 0%Z false).
Proof.
  apply (@process_holed_parse_status_zero
           (sampleEnvironment (registryWith (Return holedActivities)) samplePages)
           (mkFile "statement.pdf") samplePages "pdf"
           (fixedImplementation true (Return holedActivities)) holedActivities
           [Some "buy"; None; Some "sell"]).
  - reflexivity.
  - discriminate.
  - reflexivity.
  - left. split; reflexivity.
  - reflexivity.
  - simpl. right. left. reflexivity.
Defined.

(** An empty parse: the filter records status 5, the outcome says 0. *)
Lemma process_status_always_zero_witness :
  Outcome.status
    (Outcome.make "statement.pdf"
       (ResultObject (ParseResult.make (@None (list (option string))) (Some 5%Z)))
       0%Z false) = 0%Z
  /\ exists result : ParseResult.t string,
       Outcome.activities
         (Outcome.make "statement.pdf"
            (ResultObject (ParseResult.make None (Some 5%Z))) 0%Z false)
       = ResultObject (filterResultActivities result).
Proof.
  apply (@process_status_always_zero
           (sampleEnvironment (registryWith (Return noActivities)) samplePages)
           (mkFile "statement.pdf")).
  reflexivity.
Defined.

Example process_empty_parse :
  @process (sampleEnvironment (registryWith (Return noActivities)) samplePages)
           (mkFile "statement.pdf")
  = Fulfilled (Outcome.make "statement.pdf"
                 (ResultObject (ParseResult.make None (Some 5%Z))) 0%Z false).
Proof. reflexivity. Qed.

(** * Further properties of the code *)

(** ** Selection: soundness, call order, registry shape *)

Section SelectionFurther.
Context `{Environment}.
Implicit Types (pages : list Page) (fileName extension : string)
         (impl : Implementation Activity Json).

Local Abbreviation matching pages extension :=
  (filter (fun impl => canParseDocument impl pages extension)
          allImplementations).

(** X1 (selection soundness): an implementation that findImplementation
    returns is an entry of the registry, its canParseDocument accepts the
    document with the extension as given, and the lowercase form of the
    extension is "pdf" or "csv". *)
Theorem findImplementation_sound pages fileName extension impl :
  snd (findImplementation pages fileName extension) = Return impl ->
  In impl allImplementations
  /\ canParseDocument impl pages extension = true
  /\ (toLowerCase extension = "pdf" \/ toLowerCase extension = "csv").
Proof.
  intros Hret.
  destruct (includes acceptedFileTypes (toLowerCase extension)) eqn:Hgate.
  - rewrite (findImplementation_behind_gate _ fileName _ Hgate) in Hret.
    simpl in Hret.
    assert (Hin : In impl (matching pages extension)).
    { destruct (matching pages extension) as [|first [|second others]];
        try discriminate Hret.
      injection Hret as ->. left. reflexivity. }
    apply filter_In in Hin. destruct Hin as [Hin Haccepts].
    repeat split; try assumption.
    apply includes_acceptedFileTypes. exact Hgate.
  - unfold findImplementation in Hret. rewrite Hgate in Hret. discriminate.
Qed.

(** X2 (every entry is asked once): behind the extension gate
    findImplementation calls canParseDocument of every registry entry
    exactly once, in registry order, with the pages and the extension as
    written by the caller (not lowercased); it does not stop at the first or
    second match and makes no other call. *)
Theorem findImplementation_asks_every_entry pages fileName extension :
  toLowerCase extension = "pdf" \/ toLowerCase extension = "csv" ->
  fst (findImplementation pages fileName extension)
  = map (fun impl => CallCanParseDocument impl pages extension)
        allImplementations.
Proof.
  intros Hgate. apply includes_acceptedFileTypes in Hgate.
  now rewrite (findImplementation_behind_gate _ fileName _ Hgate).
Qed.

(** X3 (an entry registered twice is ambiguous with itself): when the
    registry lists an accepting implementation at two positions, selection
    fails with the document error of status 2. *)
Theorem findImplementation_duplicate_entry pages fileName extension impl
    before between after :
  toLowerCase extension = "pdf" \/ toLowerCase extension = "csv" ->
  allImplementations = before ++ impl :: between ++ impl :: after ->
  canParseDocument impl pages extension = true ->
  snd (findImplementation pages fileName extension)
  = Throw (ParqetDocumentError
             "Invalid document. Found multiple parser implementations for document."
             fileName 2).
Proof.
  intros Hgate Hregistry Haccepts. apply includes_acceptedFileTypes in Hgate.
  rewrite (findImplementation_behind_gate _ fileName _ Hgate). simpl.
  assert (Hin : forall l1 l2,
             In impl (filter (fun i => canParseDocument i pages extension)
                             (l1 ++ impl :: l2))).
  { intros l1 l2. apply filter_In. split; [| exact Haccepts].
    apply in_or_app. right. left. reflexivity. }
  rewrite Hregistry, filter_app. simpl. rewrite Haccepts.
  destruct (filter (fun i => canParseDocument i pages extension) before)
    as [|b1 [|b2 bs]]; simpl.
  - specialize (Hin between after).
    destruct (filter _ (between ++ impl :: after)); [destruct Hin | reflexivity].
  - reflexivity.
  - reflexivity.
Qed.

End SelectionFurther.

Lemma filter_Permutation {A} (f : A -> bool) (l l' : list A) :
  Permutation l l' -> Permutation (filter f l) (filter f l').
Proof.
  induction 1 as [| x l l' _ IH | x y l | l l' l'' _ IH1 _ IH2]; simpl.
  - constructor.
  - destruct (f x); [constructor |]; exact IH.
  - destruct (f x), (f y); try apply Permutation_refl. constructor.
  - eapply Permutation_trans; eassumption.
Qed.

(** X4 (registry order is irrelevant): listing the same entries in another
    order changes neither the selected implementation nor the error
    thrown. *)
Theorem findImplementation_registry_order (E : Environment)
    (registry : list (Implementation (@Activity E) (@Json E)))
    (pages : list Page) (fileName extension : string) :
  Permutation (@allImplementations E) registry ->
  snd (@findImplementation (withRegistry E registry) pages fileName extension)
  = snd (@findImplementation E pages fileName extension).
Proof.
  intros Hperm.
  destruct (includes acceptedFileTypes (toLowerCase extension)) eqn:Hgate.
  - rewrite (@findImplementation_behind_gate E _ fileName _ Hgate).
    rewrite (@findImplementation_behind_gate (withRegistry E registry)
               _ fileName _ Hgate).
    simpl.
    pose proof (filter_Permutation
                  (fun impl => canParseDocument impl pages extension)
                  _ _ Hperm) as Hfiltered.
    destruct (filter _ (@allImplementations E)) as [|a [|b l]] eqn:Hmine.
    + apply Permutation_nil in Hfiltered. now rewrite Hfiltered.
    + apply Permutation_length_1_inv in Hfiltered. now rewrite Hfiltered.
    + pose proof (Permutation_length Hfiltered) as Hlen.
      destruct (filter _ registry) as [|a' [|b' l']];
        simpl in Hlen; try discriminate Hlen.
      reflexivity.
  - unfold findImplementation. rewrite Hgate. reflexivity.
Qed.

Lemma findImplementation_sound_witness :
  In (fixedImplementation true (Return threeActivities))
     (registryWith (Return threeActivities))
  /\ canParseDocument (fixedImplementation true (Return threeActivities))
       samplePages "PDF" = true
  /\ (toLowerCase "PDF" = "pdf" \/ toLowerCase "PDF" = "csv").
Proof.
  apply (@findImplementation_sound
           (sampleEnvironment (registryWith (Return threeActivities)) samplePages)
           samplePages "statement.PDF" "PDF"
           (fixedImplementation true (Return threeActivities))).
  reflexivity.
Defined.

Lemma findImplementation_asks_every_entry_witness :
  fst (@findImplementation
         (sampleEnvironment (registryWith (Return threeActivities)) samplePages)
         samplePages "statement.PDF" "PDF")
  = [@CallCanParseDocument
       (sampleEnvironment (registryWith (Return threeActivities)) samplePages)
       (fixedImplementation true (Return threeActivities)) samplePages "PDF";
     @CallCanParseDocument
       (sampleEnvironment (registryWith (Return threeActivities)) samplePages)
       decliningImplementation samplePages "PDF"].
Proof.
  apply (@findImplementation_asks_every_entry
           (sampleEnvironment (registryWith (Return threeActivities)) samplePages)
           samplePages "statement.PDF" "PDF").
  left. reflexivity.
Defined.

Lemma findImplementation_duplicate_entry_witness :
  snd (@findImplementation
         (sampleEnvironment
            [fixedImplementation true (Return threeActivities);
             decliningImplementation;
             fixedImplementation true (Return threeActivities)] samplePages)
         samplePages "statement.pdf" "pdf")
  = Throw (ParqetDocumentError
             "Invalid document. Found multiple parser implementations for document."
             "statement.pdf" 2).
Proof.
  apply (@findImplementation_duplicate_entry
           (sampleEnvironment
              [fixedImplementation true (Return threeActivities);
               decliningImplementation;
               fixedImplementation true (Return threeActivities)] samplePages)
           samplePages "statement.pdf" "pdf"
           (fixedImplementation true (Return threeActivities))
           [] [decliningImplementation] []).
  - left. reflexivity.
  - reflexivity.
  - reflexivity.
Defined.

Lemma findImplementation_registry_order_witness :
  snd (@findImplementation
         (withRegistry
            (sampleEnvironment (registryWith (Return threeActivities)) samplePages)
            [decliningImplementation;
             fixedImplementation true (Return threeActivities)])
         samplePages "statement.pdf" "pdf")
  = snd (@findImplementation
           (sampleEnvironment (registryWith (Return threeActivities)) samplePages)
           samplePages "statement.pdf" "pdf").
Proof.
  apply (findImplementation_registry_order
           (sampleEnvironment (registryWith (Return threeActivities)) samplePages)
           [decliningImplementation;
            fixedImplementation true (Return threeActivities)]).
  apply perm_swap.
Defined.

(** ** Dispatch: which errors come out, what is called, what is returned *)

Section DispatchFurther.
Context `{Environment}.
Implicit Types (pages : list Page) (fileName extension : string)
         (impl : Implementation Activity Json).

(** What selection throws is one of its own three document errors. *)
Lemma findImplementation_throws pages fileName extension e :
  snd (findImplementation pages fileName extension) = Throw e ->
  isDocumentError e = true
  /\ (dataStatus e = Some 1%Z \/ dataStatus e = Some 2%Z
      \/ dataStatus e = Some 4%Z).
Proof.
  destruct (includes acceptedFileTypes (toLowerCase extension)) eqn:Hgate.
  - rewrite (findImplementation_behind_gate _ fileName _ Hgate). simpl.
    destruct (filter _ allImplementations) as [|first [|second others]];
      intros [= <-]; split; auto.
  - unfold findImplementation. rewrite Hgate. simpl.
    intros [= <-]. split; auto.
Qed.

Lemma findImplementation_log_has_no_parse pages fileName extension c :
  In c (fst (findImplementation pages fileName extension)) ->
  isParsePagesCall c = false.
Proof.
  intros Hin.
  pose proof (findImplementation_never_parses pages fileName extension) as Hnone.
  destruct (isParsePagesCall c) eqn:Hc; [| reflexivity].
  assert (Hex : existsb isParsePagesCall
                  (fst (findImplementation pages fileName extension)) = true)
    by (apply existsb_exists; exists c; split; assumption).
  congruence.
Qed.

(** A failed selection ends the run with its error. *)
Lemma parseActivities_selection_failed firstPage rest fileName extension log e :
  findImplementation (firstPage :: rest) fileName extension = (log, Throw e) ->
  parseActivitiesFromPages (firstPage :: rest) fileName extension
  = (log, Throw e).
Proof.
  intros Hfind. unfold parseActivitiesFromPages. now rewrite Hfind.
Qed.

(** The run behind a successful selection, call by call. *)
Lemma parseActivities_after_selection firstPage rest fileName extension log impl :
  findImplementation (firstPage :: rest) fileName extension
  = (log, Return impl) ->
  parseActivitiesFromPages (firstPage :: rest) fileName extension
  = if (extension =? "pdf")%string then
      (log ++ [CallParsePages impl (PdfPages (firstPage :: rest))],
       match parsePages impl (PdfPages (firstPage :: rest)) with
       | Return result => Return (ResultObject (filterResultActivities result))
       | Throw e => Throw e
       end)
    else if (extension =? "csv")%string then
      match csvLinesToJSON firstPage with
      | Throw e => (log ++ [CallCsvLinesToJSON firstPage], Throw e)
      | Return text =>
          match JSONparse text with
          | Throw e =>
              (log ++ [CallCsvLinesToJSON firstPage; CallJSONparse text],
               Throw e)
          | Return records =>
              (log ++ [CallCsvLinesToJSON firstPage; CallJSONparse text;
                       CallParsePages impl (CsvRecords records)],
               match parsePages impl (CsvRecords records) with
               | Return result =>
                   Return (ResultObject (filterResultActivities result))
               | Throw e => Throw e
               end)
          end
      end
    else (log, Return (ArrayValue [])).
Proof.
  intros Hfind. unfold parseActivitiesFromPages. rewrite Hfind.
  unfold bind, perform, ret.
  destruct (extension =? "pdf")%string.
  - destruct (parsePages impl (PdfPages (firstPage :: rest)));
      simpl; rewrite ?app_nil_r; reflexivity.
  - destruct (extension =? "csv")%string.
    + destruct (csvLinesToJSON firstPage) as [text|e]; [| reflexivity].
      destruct (JSONparse text) as [records|e]; [| reflexivity].
      destruct (parsePages impl (CsvRecords records));
        simpl; rewrite ?app_nil_r; reflexivity.
    + simpl. rewrite app_nil_r. reflexivity.
Qed.

(** X5 (errors are passed on unchanged): with canParseDocument the
    predicate of the implementation interface, which answers true or false
    and does not throw, an error thrown by parseActivitiesFromPages is
    either one of the module's own document errors, with status 1, 2 or 4,
    or exactly the error thrown by csvLinesToJSON on the first page, by
    JSON.parse, or by parsePages of a registry entry; nothing is swallowed
    or wrapped. *)
Theorem parseActivities_error_origin pages fileName extension e :
  snd (parseActivitiesFromPages pages fileName extension) = Throw e ->
  (isDocumentError e = true
   /\ (dataStatus e = Some 1%Z \/ dataStatus e = Some 2%Z
       \/ dataStatus e = Some 4%Z))
  \/ csvLinesToJSON (hd [] pages) = Throw e
  \/ (exists text, JSONparse text = Throw e)
  \/ (exists impl input,
        In impl allImplementations /\ parsePages impl input = Throw e).
Proof.
  destruct pages as [|firstPage rest].
  - simpl. intros [= <-]. left. split; auto.
  - destruct (findImplementation (firstPage :: rest) fileName extension)
      as [log [impl|e0]] eqn:Hfind.
    + assert (Hsel : snd (findImplementation (firstPage :: rest) fileName
                                             extension) = Return impl)
        by now rewrite Hfind.
      assert (Hin : In impl allImplementations).
      { destruct (includes acceptedFileTypes (toLowerCase extension)) eqn:Hgate.
        - rewrite (findImplementation_behind_gate _ fileName _ Hgate) in Hsel.
          simpl in Hsel.
          destruct (filter _ allImplementations) as [|a [|b l]] eqn:Hf;
            try discriminate Hsel.
          injection Hsel as ->.
          assert (Ha : In impl (filter
                          (fun i => canParseDocument i (firstPage :: rest)
                                                     extension)
                          allImplementations))
            by (rewrite Hf; left; reflexivity).
          apply filter_In in Ha. tauto.
        - unfold findImplementation in Hsel. rewrite Hgate in Hsel.
          discriminate Hsel. }
      rewrite (parseActivities_after_selection _ _ _ _ _ _ Hfind).
      destruct (extension =? "pdf")%string.
      * simpl.
        destruct (parsePages impl (PdfPages (firstPage :: rest)))
          as [result|e1] eqn:Hparse; [discriminate |].
        intros [= <-]. right. right. right. eauto.
      * destruct (extension =? "csv")%string; [| discriminate].
        destruct (csvLinesToJSON firstPage) as [text|e1] eqn:Htext.
        -- destruct (JSONparse text) as [records|e2] eqn:Hjson.
           ++ simpl.
              destruct (parsePages impl (CsvRecords records))
                as [result|e3] eqn:Hparse; [discriminate |].
              intros [= <-]. right. right. right. eauto.
           ++ simpl. intros [= <-]. right. right. left. eauto.
        -- simpl. intros [= <-]. right. left. exact Htext.
    + rewrite (parseActivities_selection_failed _ _ _ _ _ _ Hfind). simpl.
      intros [= <-]. left.
      apply (findImplementation_throws (firstPage :: rest) fileName extension).
      now rewrite Hfind.
Qed.

(** X6 (only the selected implementation parses): every parsePages call of
    a run is made on the implementation that findImplementation returned,
    with the pages unchanged when the extension is "pdf" and with the
    parsed JSON of the first page when it is "csv"; no run makes more than
    one such call. *)
Theorem parsePages_only_on_selected pages fileName extension :
  (forall impl input,
      In (CallParsePages impl input)
         (fst (parseActivitiesFromPages pages fileName extension)) ->
      snd (findImplementation pages fileName extension) = Return impl
      /\ ((extension = "pdf" /\ input = PdfPages pages)
          \/ (extension = "csv"
              /\ exists text records,
                   csvLinesToJSON (hd [] pages) = Return text
                   /\ JSONparse text = Return records
                   /\ input = CsvRecords records)))
  /\ (length (filter isParsePagesCall
                (fst (parseActivitiesFromPages pages fileName extension)))
      <= 1)%nat.
Proof.
  assert (Hquiet : forall l, (forall c, In c l -> isParsePagesCall c = false) ->
                             filter isParsePagesCall l = []).
  { induction l as [|c l IH]; intros Hall; [reflexivity |].
    simpl. rewrite (Hall c (or_introl eq_refl)).
    apply IH. intros c' Hc'. apply Hall. right. exact Hc'. }
  destruct pages as [|firstPage rest]; [split; [intros ? ? [] | simpl; lia] |].
  pose proof (findImplementation_log_has_no_parse (firstPage :: rest)
                fileName extension) as Hlog.
  destruct (findImplementation (firstPage :: rest) fileName extension)
    as [log [impl|e0]] eqn:Hfind; simpl in Hlog.
  - rewrite (parseActivities_after_selection _ _ _ _ _ _ Hfind).
    destruct (String.eqb_spec extension "pdf") as [Hpdf|Hpdf].
    + simpl. split.
      * intros impl' input Hin. apply in_app_or in Hin.
        destruct Hin as [Hin | [Hin | []]].
        -- apply Hlog in Hin. discriminate Hin.
        -- injection Hin as <- <-. split; [reflexivity | left; now split].
      * rewrite filter_app, (Hquiet log Hlog). simpl. lia.
    + destruct (String.eqb_spec extension "csv") as [Hcsv|Hcsv].
      * destruct (csvLinesToJSON firstPage) as [text|e1] eqn:Htext;
          [destruct (JSONparse text) as [records|e2] eqn:Hjson |]; simpl.
        -- split.
           ++ intros impl' input Hin. apply in_app_or in Hin.
              destruct Hin as [Hin | [Hin | [Hin | [Hin | []]]]];
                try discriminate Hin.
              ** apply Hlog in Hin. discriminate Hin.
              ** injection Hin as <- <-. split; [reflexivity | right].
                 split; [exact Hcsv |]. exists text, records. now repeat split.
           ++ rewrite filter_app, (Hquiet log Hlog). simpl. lia.
        -- split.
           ++ intros impl' input Hin. apply in_app_or in Hin.
              destruct Hin as [Hin | [Hin | [Hin | []]]];
                try discriminate Hin.
              apply Hlog in Hin. discriminate Hin.
           ++ rewrite filter_app, (Hquiet log Hlog). simpl. lia.
        -- split.
           ++ intros impl' input Hin. apply in_app_or in Hin.
              destruct Hin as [Hin | [Hin | []]]; try discriminate Hin.
              apply Hlog in Hin. discriminate Hin.
           ++ rewrite filter_app, (Hquiet log Hlog). simpl. lia.
      * simpl. split.
        -- intros impl' input Hin. apply Hlog in Hin. discriminate Hin.
        -- rewrite (Hquiet log Hlog). simpl. lia.
  - rewrite (parseActivities_selection_failed _ _ _ _ _ _ Hfind). simpl. split.
    + intros impl' input Hin. apply Hlog in Hin. discriminate Hin.
    + rewrite (Hquiet log Hlog). simpl. lia.
Qed.

(** X7 (what is returned is clean): a value returned by
    parseActivitiesFromPages is the empty array or a parse result whose
    activities are absent or form a non-empty array without undefined
    elements. *)
Theorem parseActivities_returns_clean pages fileName extension v :
  snd (parseActivitiesFromPages pages fileName extension) = Return v ->
  match v with
  | ArrayValue items => items = []
  | ResultObject result =>
      match ParseResult.activities result with
      | None => True
      | Some items => items <> [] /\ ~ In None items
      end
  end.
Proof.
  intros Hrun.
  destruct (parseActivities_value_shape _ _ _ _ Hrun)
    as [(-> & _ & _) | [result ->]]; [reflexivity |].
  apply filter_output_shape.
Qed.

(** X8 (a failing CSV conversion stops the run): for the extension "csv"
    and a successful selection, an error thrown by csvLinesToJSON on the
    first page, or by JSON.parse on its output, is the error of the run,
    and parsePages is not called. *)
Theorem parseActivities_csv_conversion_fails pages fileName impl e :
  pages <> [] ->
  snd (findImplementation pages fileName "csv") = Return impl ->
  csvLinesToJSON (hd [] pages) = Throw e
  \/ (exists text, csvLinesToJSON (hd [] pages) = Return text
                   /\ JSONparse text = Throw e) ->
  snd (parseActivitiesFromPages pages fileName "csv") = Throw e
  /\ existsb isParsePagesCall
       (fst (parseActivitiesFromPages pages fileName "csv")) = false.
Proof.
  intros Hpages Hsel Hfails.
  destruct pages as [|firstPage rest]; [contradiction |].
  pose proof (findImplementation_never_parses (firstPage :: rest)
                fileName "csv") as Hquiet.
  destruct (findImplementation (firstPage :: rest) fileName "csv")
    as [log c] eqn:Hfind.
  simpl in Hsel, Hquiet. subst c.
  rewrite (parseActivities_after_selection _ _ _ _ _ _ Hfind). simpl in *.
  destruct Hfails as [Htext | (text & Htext & Hjson)]; rewrite Htext.
  - simpl. split; [reflexivity |].
    rewrite existsb_app, Hquiet. reflexivity.
  - rewrite Hjson. simpl. split; [reflexivity |].
    rewrite existsb_app, Hquiet. reflexivity.
Qed.

End DispatchFurther.

Lemma parseActivities_error_origin_witness :
  (isDocumentError parserFailure = true
   /\ (dataStatus parserFailure = Some 1%Z \/ dataStatus parserFailure = Some 2%Z
       \/ dataStatus parserFailure = Some 4%Z))
  \/ Return (String.concat ";" (hd [] samplePages)) = Throw parserFailure
  \/ (exists text : string, Return (split ";" text) = Throw parserFailure)
  \/ (exists (impl : Implementation string (list string))
             (input : ParseInput (list string)),
        In impl (registryWith (Throw parserFailure))
        /\ parsePages impl input = Throw parserFailure).
Proof.
  apply (@parseActivities_error_origin
           (sampleEnvironment (registryWith (Throw parserFailure)) samplePages)
           samplePages "statement.pdf" "pdf" parserFailure).
  reflexivity.
Defined.

Lemma parseActivities_returns_clean_witness :
  [Some "buy"; Some "sell"; Some "dividend"] <> []
  /\ ~ In None [Some "buy"; Some "sell"; Some "dividend"].
Proof.
  apply (@parseActivities_returns_clean
           (sampleEnvironment (registryWith (Return threeActivities)) samplePages)
           samplePages "statement.csv" "csv" (ResultObject threeActivities)).
  reflexivity.
Defined.

Lemma parseActivities_csv_conversion_fails_witness :
  snd (@parseActivitiesFromPages
         (brokenCsvEnvironment (registryWith (Return threeActivities)))
         samplePages "statement.csv" "csv")
  = Throw (mkError PlainError "Cannot read properties of undefined" None)
  /\ existsb isParsePagesCall
       (fst (@parseActivitiesFromPages
               (brokenCsvEnvironment (registryWith (Return threeActivities)))
               samplePages "statement.csv" "csv")) = false.
Proof.
  apply (@parseActivities_csv_conversion_fails
           (brokenCsvEnvironment (registryWith (Return threeActivities)))
           samplePages "statement.csv"
           (fixedImplementation true (Return threeActivities))).
  - discriminate.
  - reflexivity.
  - left. reflexivity.
Defined.

(** ** The result filter: fixed points and what a status 0 means *)

Section ResultFilterFurther.
Context {A : Type}.
Implicit Types (result : ParseResult.t A) (items : list (option A)).

(** X9 (fixed points of the filter): the filter leaves a result unchanged
    exactly when its activities are absent or form a non-empty array
    without undefined elements. *)
Theorem filter_fixed_points result :
  filterResultActivities result = result
  <-> (ParseResult.activities result = None
       \/ exists items, ParseResult.activities result = Some items
                        /\ items <> [] /\ ~ In None items).
Proof.
  split.
  - intros Hfixed.
    pose proof (filter_output_shape result) as Hshape.
    rewrite Hfixed in Hshape.
    destruct (ParseResult.activities result) as [items|]; [right | now left].
    exists items. tauto.
  - intros [Hnone | (items & Hact & Hne & Hvalid)].
    + exact (filter_without_activities _ Hnone).
    + exact (filter_keeps_valid _ _ Hact Hne Hvalid).
Qed.

(** X10 (all or nothing): the filter never drops or replaces single
    activities: its output carries the input array as it came or none at
    all, and the status is the input status unless the array was dropped
    with status 5 or 6. *)
Theorem filter_all_or_nothing result :
  (ParseResult.activities (filterResultActivities result) = None
   \/ ParseResult.activities (filterResultActivities result)
      = ParseResult.activities result)
  /\ (ParseResult.status (filterResultActivities result)
      = ParseResult.status result
      \/ (ParseResult.activities result <> None
          /\ ParseResult.activities (filterResultActivities result) = None
          /\ (ParseResult.status (filterResultActivities result) = Some 5%Z
              \/ ParseResult.status (filterResultActivities result)
                 = Some 6%Z))).
Proof.
  destruct result as [[items|] st]; unfold filterResultActivities; simpl;
    [| split; left; reflexivity].
  destruct (0 <? length (filter isUndefined items))%nat; simpl.
  - split; [left; reflexivity |].
    right. repeat split; [discriminate | right; reflexivity].
  - destruct (length items =? 0)%nat; simpl.
    + split; [left; reflexivity |].
      destruct (statusIsZero st); [| left; reflexivity].
      right. repeat split; [discriminate | left; reflexivity].
    + split; [right | left]; reflexivity.
Qed.

(** X11 (a status 0 behind the filter): when the filtered result has
    status 0, the filter has changed nothing: no activity was discarded. *)
Theorem filter_status_zero_unchanged result :
  ParseResult.status (filterResultActivities result) = Some 0%Z ->
  filterResultActivities result = result.
Proof.
  destruct result as [[items|] st]; unfold filterResultActivities; simpl;
    [| reflexivity].
  destruct (0 <? length (filter isUndefined items))%nat; simpl;
    [discriminate |].
  destruct (length items =? 0)%nat eqn:Hlen; simpl; [| reflexivity].
  destruct st as [s|]; simpl; [| discriminate].
  destruct (Z.eqb_spec s 0); [discriminate |].
  intros [= ->]. contradiction.
Qed.

End ResultFilterFurther.

Lemma filter_status_zero_unchanged_witness :
  filterResultActivities threeActivities = threeActivities.
Proof.
  apply (filter_status_zero_unchanged threeActivities). reflexivity.
Defined.

(** ** Strings: splitting and the last piece *)

Lemma split_nonempty (sep : ascii) (s : string) : split sep s <> [].
Proof.
  destruct s as [|c rest]; simpl; [discriminate |].
  destruct (Ascii.eqb c sep); [discriminate |].
  destruct (split sep rest); discriminate.
Qed.

Lemma split_without_separator (sep : ascii) (s : string) :
  ~ In sep (list_ascii_of_string s) -> split sep s = [s].
Proof.
  induction s as [|c rest IH]; intros Hfree; [reflexivity |].
  simpl in *. destruct (Ascii.eqb_spec c sep) as [-> | Hne]; [tauto |].
  rewrite IH by tauto. reflexivity.
Qed.

Lemma split_app (sep : ascii) (a b : string) :
  split sep (a ++ String sep b) = split sep a ++ split sep b.
Proof.
  induction a as [|c rest IH]; simpl.
  - now rewrite Ascii.eqb_refl.
  - destruct (Ascii.eqb c sep); rewrite IH; [reflexivity |].
    pose proof (split_nonempty sep rest) as Hne.
    destruct (split sep rest); [contradiction | reflexivity].
Qed.

Lemma last_app_nonempty {A} (l1 l2 : list A) (d : A) :
  l2 <> [] -> last (l1 ++ l2) d = last l2 d.
Proof.
  intros Hne. induction l1 as [|x l1 IH]; [reflexivity |].
  simpl. rewrite IH.
  destruct (l1 ++ l2) eqn:Happ; [| reflexivity].
  apply app_eq_nil in Happ. tauto.
Qed.

Lemma pop_split_after_last (sep : ascii) (stem ext : string) :
  ~ In sep (list_ascii_of_string ext) ->
  pop (split sep (stem ++ String sep ext)) = ext.
Proof.
  intros Hfree. unfold pop.
  rewrite split_app, last_app_nonempty by apply split_nonempty.
  now rewrite (split_without_separator _ _ Hfree).
Qed.

(** ** The default export and [parseFile] *)

Section PipelineFurther.
Context `{Environment}.
Implicit Types (file : File) (parsedFile : ParsedFile)
         (impl : Implementation Activity Json).

Local Abbreviation matching pages extension :=
  (filter (fun impl => canParseDocument impl pages extension)
          allImplementations).

(** A return of parseActivitiesFromPages needs pages and a selection. *)
Lemma parseActivities_return_needs_selection pages fileName extension v :
  snd (parseActivitiesFromPages pages fileName extension) = Return v ->
  pages <> []
  /\ exists impl, snd (findImplementation pages fileName extension)
                  = Return impl.
Proof.
  destruct pages as [|firstPage rest]; [discriminate |].
  intros Hrun. split; [discriminate |].
  destruct (findImplementation (firstPage :: rest) fileName extension)
    as [log [impl|e]] eqn:Hfind.
  - exists impl. reflexivity.
  - rewrite (parseActivities_selection_failed _ _ _ _ _ _ Hfind) in Hrun.
    discriminate Hrun.
Qed.

(** X12 (when the promise resolves): the default export resolves only for
    a file that parseFile has read into at least one page, whose extension
    is "pdf" or "csv", and for which exactly one registry entry accepts the
    document; the outcome names the file. *)
Theorem process_resolves_only_after_selection file outcome :
  process file = Fulfilled outcome ->
  Outcome.file outcome = name file
  /\ exists parsedFile impl,
       parseFile file = Fulfilled parsedFile
       /\ pages parsedFile <> []
       /\ (extension parsedFile = "pdf" \/ extension parsedFile = "csv")
       /\ matching (pages parsedFile) (extension parsedFile) = [impl].
Proof.
  rewrite process_cases.
  destruct (parseFile file) as [|parsedFile|r] eqn:Hparsed; try discriminate.
  destruct (snd (parseActivitiesFromPages _ _ _)) as [v|e] eqn:Hrun;
    [| discriminate].
  intros [= <-]. split; [reflexivity |].
  pose proof (parseActivities_return_passed_gate _ _ _ _ Hrun) as Hgate.
  destruct (parseActivities_return_needs_selection _ _ _ _ Hrun)
    as [Hpages [impl Hsel]].
  exists parsedFile, impl. repeat split; try assumption.
  - rewrite <- (parseFile_extension_lowercase _ _ Hparsed).
    apply includes_acceptedFileTypes. exact Hgate.
  - rewrite (findImplementation_behind_gate _ (name file) _ Hgate) in Hsel.
    simpl in Hsel.
    destruct (matching (pages parsedFile) (extension parsedFile))
      as [|first [|second others]]; try discriminate Hsel.
    now injection Hsel as ->.
Qed.

(** X13 (the promise is never rejected): whatever parseFile and the
    implementations do, the promise of the default export is not rejected,
    and it stays pending whenever parseFile does not fulfil. *)
Theorem process_pending_or_fulfilled file :
  (forall reason, process file <> Rejected reason)
  /\ ((forall parsedFile, parseFile file <> Fulfilled parsedFile) ->
      process file = Pending).
Proof.
  rewrite process_cases. split.
  - intros reason.
    destruct (parseFile file) as [|parsedFile|r]; try discriminate.
    destruct (snd (parseActivitiesFromPages _ _ _)); discriminate.
  - intros Hnever.
    destruct (parseFile file) as [|parsedFile|r]; try reflexivity.
    now destruct (Hnever parsedFile).
Qed.

(** X14 (the extension is what follows the last dot): for a file name of
    code units below 256, when parseFile fulfils, the extension it reports
    is the lowercase form of the part of the name behind its last dot, and
    of the whole name when the name has no dot. *)
Theorem parseFile_extension_after_last_dot file parsedFile :
  parseFile file = Fulfilled parsedFile ->
  (forall stem ext,
      name file = (stem ++ String "." ext)%string ->
      ~ In "."%char (list_ascii_of_string ext) ->
      extension parsedFile = toLowerCase ext)
  /\ (~ In "."%char (list_ascii_of_string (name file)) ->
      extension parsedFile = toLowerCase (name file)).
Proof.
  unfold parseFile.
  destruct (readPages file _) as [|read|reason]; try discriminate.
  intros [= <-]. simpl. split.
  - intros stem ext Hname Hfree.
    now rewrite Hname, (pop_split_after_last _ stem _ Hfree).
  - intros Hfree. now rewrite (split_without_separator _ _ Hfree).
Qed.

(** X15 (an upper-case extension is parsed like the lower-case one): for a
    file whose name ends in a dot and a spelling of "pdf" in any case, read
    into pages that exactly one registry entry accepts, the default export
    hands the pages to parsePages of that entry and resolves with its
    filtered result. *)
Theorem process_extension_case_insensitive file stem ext read impl result :
  name file = (stem ++ String "." ext)%string ->
  toLowerCase ext = "pdf" ->
  readPages file "pdf" = Fulfilled read ->
  read <> [] ->
  matching read "pdf" = [impl] ->
  parsePages impl (PdfPages read) = Return result ->
  process file
  = Fulfilled (Outcome.make (name file)
                 (ResultObject (filterResultActivities result)) 0%Z false).
Proof.
  intros Hname Hlower Hread Hpages Hone Hparse.
  assert (Hfree : ~ In "."%char (list_ascii_of_string ext)).
  { assert (Hpres : forall s, In "."%char (list_ascii_of_string s) ->
                              In "."%char (list_ascii_of_string (toLowerCase s))).
    { induction s as [|c rest IH]; simpl; [tauto |].
      intros [-> | Hin]; [left; reflexivity | right; exact (IH Hin)]. }
    intros Hin. apply Hpres in Hin. rewrite Hlower in Hin.
    simpl in Hin. intuition discriminate. }
  assert (Hparsed : parseFile file = Fulfilled (mkParsedFile read "pdf")).
  { unfold parseFile.
    rewrite Hname, (pop_split_after_last _ stem _ Hfree), Hlower, Hread.
    reflexivity. }
  rewrite process_cases, Hparsed. simpl.
  rewrite (parseActivities_dispatch _ (name file) _ impl result Hpages Hone)
    by (left; split; [reflexivity | exact Hparse]).
  reflexivity.
Qed.

End PipelineFurther.

Lemma process_resolves_only_after_selection_witness :
  "statement.csv" = "statement.csv"
  /\ exists (parsedFile : ParsedFile)
            (impl : Implementation string (list string)),
       @parseFile
         (sampleEnvironment (registryWith (Return threeActivities)) samplePages)
         (mkFile "statement.csv") = Fulfilled parsedFile
       /\ pages parsedFile <> []
       /\ (extension parsedFile = "pdf" \/ extension parsedFile = "csv")
       /\ filter (fun impl => canParseDocument impl (pages parsedFile)
                                               (extension parsedFile))
                 (registryWith (Return threeActivities)) = [impl].
Proof.
  apply (@process_resolves_only_after_selection
           (sampleEnvironment (registryWith (Return threeActivities)) samplePages)
           (mkFile "statement.csv")
           (Outcome.make "statement.csv" (ResultObject threeActivities)
                         0%Z false)).
  reflexivity.
Defined.

Lemma parseFile_extension_after_last_dot_witness :
  extension (mkParsedFile samplePages "pdf") = toLowerCase "PDF".
Proof.
  apply (proj1 (@parseFile_extension_after_last_dot
                  (sampleEnvironment [] samplePages)
                  (mkFile "Depot.2020.PDF") (mkParsedFile samplePages "pdf")
                  eq_refl)
               "Depot.2020" "PDF").
  - reflexivity.
  - simpl. intuition discriminate.
Defined.

(** Beyond A-Z: E acute (201) becomes e acute (233); the multiplication
    sign (215) and the sharp s (223) stay. *)
Example lowerChar_latin1 :
  map lowerChar [ascii_of_nat 201; ascii_of_nat 215; ascii_of_nat 223;
                 ascii_of_nat 222; ascii_of_nat 255; ascii_of_nat 80]
  = [ascii_of_nat 233; ascii_of_nat 215; ascii_of_nat 223;
     ascii_of_nat 254; ascii_of_nat 255; ascii_of_nat 112].
Proof. reflexivity. Qed.

Example parseFile_extension_latin1 :
  @parseFile (sampleEnvironment [] samplePages)
    (mkFile (String "x" (String "." (String (ascii_of_nat 201) EmptyString))))
  = Fulfilled (mkParsedFile samplePages
                 (String (ascii_of_nat 233) EmptyString)).
Proof. reflexivity. Qed.

Lemma process_extension_case_insensitive_witness :
  @process (sampleEnvironment (registryWith (Return holedActivities)) samplePages)
           (mkFile "Depot.2020.PDF")
  = Fulfilled (Outcome.make "Depot.2020.PDF"
                 (ResultObject (filterResultActivities holedActivities))
                 0%Z false).
Proof.
  apply (@process_extension_case_insensitive
           (sampleEnvironment (registryWith (Return holedActivities)) samplePages)
           (mkFile "Depot.2020.PDF") "Depot.2020" "PDF" samplePages
           (fixedImplementation true (Return holedActivities)) holedActivities).
  - reflexivity.
  - reflexivity.
  - reflexivity.
  - discriminate.
  - reflexivity.
  - reflexivity.
Defined.

(** ** Reading: trimming, text pages, PDF pages *)

Lemma trimStart_head (s : string) (c : ascii) (rest : string) :
  trimStart s = String c rest -> isWhiteSpace c = false.
Proof.
  induction s as [|d s IH]; simpl; [discriminate |].
  destruct (isWhiteSpace d) eqn:Hd; [exact IH |].
  intros [= <- _]. exact Hd.
Qed.

Lemma trimEnd_idempotent (s : string) : trimEnd (trimEnd s) = trimEnd s.
Proof.
  induction s as [|c rest IH]; [reflexivity |].
  simpl. destruct (trimEnd rest) as [|k kept] eqn:Hrest.
  - destruct (isWhiteSpace c) eqn:Hc; [reflexivity |].
    simpl. now rewrite Hc.
  - simpl in *. rewrite IH. reflexivity.
Qed.

Lemma trimEnd_keeps_head (c : ascii) (rest : string) :
  isWhiteSpace c = false ->
  exists kept, trimEnd (String c rest) = String c kept.
Proof.
  intros Hc. simpl. destruct (trimEnd rest) as [|k kept].
  - rewrite Hc. now exists EmptyString.
  - now exists (String k kept).
Qed.

Lemma trim_idempotent (s : string) : trim (trim s) = trim s.
Proof.
  unfold trim. destruct (trimStart s) as [|c rest] eqn:Hstart; [reflexivity |].
  pose proof (trimStart_head _ _ _ Hstart) as Hc.
  destruct (trimEnd_keeps_head c rest Hc) as [kept Hkept].
  rewrite Hkept at 1. simpl trimStart. rewrite Hc, <- Hkept.
  apply trimEnd_idempotent.
Qed.

Lemma length_positive_nonempty (s : string) :
  (0 <? String.length s)%nat = true <-> s <> EmptyString.
Proof.
  destruct s; simpl; split; intros Hs; try discriminate; try reflexivity.
  now destruct Hs.
Qed.

Lemma concat_split (sep : ascii) (s : string) :
  String.concat (String sep EmptyString) (split sep s) = s.
Proof.
  induction s as [|c rest IH]; [reflexivity |].
  simpl split. pose proof (split_nonempty sep rest) as Hne.
  destruct (Ascii.eqb_spec c sep) as [-> | Hc].
  - destruct (split sep rest) as [|seg segs]; [contradiction |].
    change (String.concat (String sep EmptyString) (EmptyString :: seg :: segs))
      with (String sep (String.concat (String sep EmptyString) (seg :: segs))).
    now rewrite IH.
  - destruct (split sep rest) as [|seg [|next segs]]; [contradiction | |].
    + simpl in *. now rewrite IH.
    + change (String.concat (String sep EmptyString)
                (String c seg :: next :: segs))
        with (String c (String.concat (String sep EmptyString)
                          (seg :: next :: segs))).
      now rewrite IH.
Qed.

Lemma split_segments_free (sep : ascii) (s seg : string) :
  In seg (split sep s) -> ~ In sep (list_ascii_of_string seg).
Proof.
  revert seg. induction s as [|c rest IH]; intros seg; simpl.
  - intros [<- | []]. simpl. tauto.
  - destruct (Ascii.eqb_spec c sep) as [-> | Hc].
    + intros [<- | Hin]; [simpl; tauto | exact (IH _ Hin)].
    + pose proof (split_nonempty sep rest) as Hne.
      destruct (split sep rest) as [|first others]; [contradiction |].
      intros [<- | Hin].
      * simpl. intros [Heq | Hin]; [now apply Hc |].
        exact (IH first (or_introl eq_refl) Hin).
      * apply IH. right. exact Hin.
Qed.

(** X16 (fragments of a PDF page): when the text content of a page is
    delivered, parsePageToContent fulfils with fragments none of which is
    empty or has white space at either end; the fragments are exactly the
    non-empty trimmed items, and there are no more of them than items. *)
Theorem parsePageToContent_fragments (page : PDFPageProxy) (items : list string) :
  getTextContent page = Fulfilled items ->
  exists fragments,
    parsePageToContent page = Fulfilled fragments
    /\ Forall (fun f => f <> EmptyString /\ trim f = f) fragments
    /\ (forall f, In f fragments
                  <-> f <> EmptyString
                      /\ exists item, In item items /\ trim item = f)
    /\ (length fragments <= length items)%nat.
Proof.
  intros Hcontent. unfold parsePageToContent. rewrite Hcontent.
  eexists. split; [reflexivity |].
  assert (Hmem : forall f,
             In f (filter (fun item => (0 <? String.length item)%nat)
                          (map trim items))
             <-> f <> EmptyString
                 /\ exists item, In item items /\ trim item = f).
  { intros f. rewrite filter_In, in_map_iff, length_positive_nonempty.
    split.
    - intros [(item & Htrim & Hin) Hne]. split; [exact Hne |].
      exists item. now split.
    - intros [Hne (item & Hin & Htrim)]. split; [| exact Hne].
      exists item. now split. }
  split; [| split].
  - apply Forall_forall. intros f Hin. apply Hmem in Hin.
    destruct Hin as [Hne (item & _ & <-)].
    split; [exact Hne | apply trim_idempotent].
  - exact Hmem.
  - rewrite <- (length_map trim items). apply filter_length_le.
Qed.

Section Reading.
Context {B : Browser}.

(** X17 (a text file is one page of lines): in a browser, for an extension
    other than "pdf" and a load event carrying text, the reader delivers
    exactly one page; its lines contain no line feed and, joined by line
    feeds, give back the text without its surrounding white space. *)
Theorem readWithFileReader_text_page (file : File) (extension text : string) :
  isBrowser = true -> isNode = false ->
  extension <> "pdf" ->
  loadEvent file AsText = Some (StringResult text) ->
  exists lines,
    readWithFileReader file extension = Fulfilled [lines]
    /\ String.concat newline lines = trim text
    /\ Forall (fun line =>
                 ~ In (ascii_of_nat 10) (list_ascii_of_string line)) lines.
Proof.
  intros Hbrowser Hnode Hext Hload.
  unfold readWithFileReader, onload.
  apply String.eqb_neq in Hext. rewrite Hext, Hload, Hbrowser, Hnode. simpl.
  eexists. split; [reflexivity |]. split.
  - apply concat_split.
  - apply Forall_forall. intros line. apply split_segments_free.
Qed.

Lemma readPdfPages_all_delivered (pdfDocument : PDFDocumentProxy)
    (items : nat -> list string) (pageIndexes : list nat) (done : list Page) :
  (forall pageIndex, In pageIndex pageIndexes ->
     getPage pdfDocument (pageIndex + 1)
     = Fulfilled (mkPage (Fulfilled (items (pageIndex + 1))))) ->
  readPdfPages pdfDocument pageIndexes done
  = Some (done ++ map (fun pageIndex =>
                         filter (fun item => (0 <? String.length item)%nat)
                                (map trim (items (pageIndex + 1))))
                      pageIndexes).
Proof.
  revert done. induction pageIndexes as [|pageIndex rest IH]; intros done Hall.
  - simpl. now rewrite app_nil_r.
  - simpl. rewrite (Hall pageIndex (or_introl eq_refl)). simpl.
    rewrite IH by (intros i Hi; apply Hall; right; exact Hi).
    now rewrite <- app_assoc.
Qed.

Lemma readPdfPages_one_missing (pdfDocument : PDFDocumentProxy)
    (pageIndexes : list nat) (done : list Page) (missing : nat) :
  In missing pageIndexes ->
  (forall page content,
      getPage pdfDocument (missing + 1) = Fulfilled page ->
      getTextContent page <> Fulfilled content) ->
  readPdfPages pdfDocument pageIndexes done = None.
Proof.
  revert done. induction pageIndexes as [|pageIndex rest IH];
    intros done Hin Hfails; [destruct Hin |].
  simpl. unfold await, parsePageToContent.
  destruct (Nat.eq_dec pageIndex missing) as [-> | Hother].
  - destruct (getPage pdfDocument (missing + 1)) as [|page|r] eqn:Hpage;
      try reflexivity.
    destruct (getTextContent page) as [|content|r] eqn:Hcontent;
      try reflexivity.
    now destruct (Hfails page content eq_refl).
  - destruct Hin as [Heq | Hin]; [contradiction |].
    destruct (getPage pdfDocument (pageIndex + 1)) as [|page|r];
      try reflexivity.
    destruct (getTextContent page) as [|content|r]; try reflexivity.
    apply IH; assumption.
Qed.

(** X18 (pages of a PDF, in order): in a browser, when the document opens
    and each of its pages delivers its text content, the reader fulfils
    with as many pages as the document has, page number k of the document
    at position k - 1, each holding the non-empty trimmed fragments of that
    page. *)
Theorem readWithFileReader_pdf_pages (file : File) (buffer : ArrayBuffer)
    (pdfDocument : PDFDocumentProxy) (items : nat -> list string) :
  isBrowser = true -> isNode = false ->
  loadEvent file AsArrayBuffer = Some (BufferResult buffer) ->
  getDocument buffer = Fulfilled pdfDocument ->
  (forall pageNumber,
      (1 <= pageNumber <= numPages pdfDocument)%nat ->
      getPage pdfDocument pageNumber
      = Fulfilled (mkPage (Fulfilled (items pageNumber)))) ->
  exists read,
    readWithFileReader file "pdf" = Fulfilled read
    /\ length read = numPages pdfDocument
    /\ forall pageIndex,
         (pageIndex < numPages pdfDocument)%nat ->
         nth_error read pageIndex
         = Some (filter (fun item => (0 <? String.length item)%nat)
                        (map trim (items (pageIndex + 1)))).
Proof.
  intros Hbrowser Hnode Hload Hopen Hpages.
  unfold readWithFileReader, onload. simpl.
  rewrite Hload, Hbrowser, Hnode, Hopen. simpl.
  rewrite (readPdfPages_all_delivered pdfDocument items).
  - simpl. eexists. split; [reflexivity |]. split.
    + now rewrite length_map, length_seq.
    + intros pageIndex Hlt.
      rewrite nth_error_map, nth_error_seq.
      apply Nat.ltb_lt in Hlt. rewrite Hlt. reflexivity.
  - intros pageIndex Hin. apply in_seq in Hin. apply Hpages. lia.
Qed.

(** X19 (no partial document): in a browser, when one page of the opened
    document does not deliver its text content - its page promise or its
    content promise rejects or never settles - the reader never settles:
    the pages read so far are not handed on. *)
Theorem readWithFileReader_pdf_page_missing (file : File) (buffer : ArrayBuffer)
    (pdfDocument : PDFDocumentProxy) (pageNumber : nat) :
  isBrowser = true -> isNode = false ->
  loadEvent file AsArrayBuffer = Some (BufferResult buffer) ->
  getDocument buffer = Fulfilled pdfDocument ->
  (1 <= pageNumber <= numPages pdfDocument)%nat ->
  (forall page content,
      getPage pdfDocument pageNumber = Fulfilled page ->
      getTextContent page <> Fulfilled content) ->
  readWithFileReader file "pdf" = Pending.
Proof.
  intros Hbrowser Hnode Hload Hopen Hrange Hfails.
  unfold readWithFileReader, onload. simpl.
  rewrite Hload, Hbrowser, Hnode, Hopen. simpl.
  rewrite (readPdfPages_one_missing pdfDocument _ [] (pageNumber - 1)).
  - reflexivity.
  - apply in_seq. lia.
  - replace (pageNumber - 1 + 1)%nat with pageNumber by lia. exact Hfails.
Qed.

End Reading.

(** X20 (outside a browser nothing is read): on a platform with a
    FileReader where the test of line 95 holds - no browser, or Node -
    parseFile fulfils with an empty pages array as soon as the load event
    fires, whatever the file holds; it never fulfils with a page, and the
    promise of the default export stays pending for every file. *)
Theorem process_outside_browser (B : Browser) (E : Environment) (file : File) :
  negb (@isBrowser B) || @isNode B = true ->
  (forall result,
      @loadEvent B file
        (if (toLowerCase (pop (split "." (name file))) =? "pdf")%string
         then AsArrayBuffer else AsText) = Some result ->
      @parseFile (readingThrough B E) file
      = Fulfilled (mkParsedFile [] (toLowerCase (pop (split "." (name file))))))
  /\ (forall parsedFile,
        @parseFile (readingThrough B E) file = Fulfilled parsedFile ->
        pages parsedFile = [])
  /\ @process (readingThrough B E) file = Pending.
Proof.
  intros Hplatform.
  assert (Hloaded : forall extension result,
             @loadEvent B file
               (if (extension =? "pdf")%string then AsArrayBuffer else AsText)
             = Some result ->
             @readWithFileReader B file extension = Fulfilled []).
  { intros extension result Hload. unfold readWithFileReader.
    rewrite Hload. unfold onload. rewrite Hplatform. simpl.
    match goal with
    | |- context [match ?c with Some _ => _ | None => _ end] => destruct c
    end; reflexivity. }
  assert (Hread : forall extension,
             @readWithFileReader B file extension = Pending
             \/ @readWithFileReader B file extension = Fulfilled []).
  { intros extension.
    destruct (@loadEvent B file
                (if (extension =? "pdf")%string then AsArrayBuffer else AsText))
      as [result|] eqn:Hload.
    - right. exact (Hloaded extension result Hload).
    - left. unfold readWithFileReader. now rewrite Hload. }
  split; [| split].
  - intros result Hload. unfold parseFile. simpl.
    now rewrite (Hloaded _ result Hload).
  - intros parsedFile. unfold parseFile. simpl.
    destruct (Hread (toLowerCase (pop (split "." (name file)))))
      as [-> | ->]; [discriminate |].
    now intros [= <-].
  - rewrite process_cases. unfold parseFile. simpl.
    destruct (Hread (toLowerCase (pop (split "." (name file)))))
      as [-> | ->]; reflexivity.
Qed.

Lemma parsePageToContent_fragments_witness :
  exists fragments,
    parsePageToContent (mkPage (Fulfilled [" Depot "; "  "; "Kauf"]))
    = Fulfilled fragments
    /\ Forall (fun f => f <> EmptyString /\ trim f = f) fragments
    /\ (forall f, In f fragments
                  <-> f <> EmptyString
                      /\ exists item,
                           In item [" Depot "; "  "; "Kauf"] /\ trim item = f)
    /\ (length fragments <= length [" Depot "; "  "; "Kauf"])%nat.
Proof.
  apply (parsePageToContent_fragments
           (mkPage (Fulfilled [" Depot "; "  "; "Kauf"]))).
  reflexivity.
Defined.

Example parsePageToContent_sample :
  parsePageToContent (mkPage (Fulfilled [" Depot "; "  "; "Kauf"]))
  = Fulfilled ["Depot"; "Kauf"].
Proof. reflexivity. Qed.

Lemma readWithFileReader_text_page_witness :
  exists lines,
    @readWithFileReader (sampleBrowser true sampleCsvContent sampleDocument)
      (mkFile "umsatz.csv") "csv" = Fulfilled [lines]
    /\ String.concat newline lines = trim sampleCsvContent
    /\ Forall (fun line =>
                 ~ In (ascii_of_nat 10) (list_ascii_of_string line)) lines.
Proof.
  apply (@readWithFileReader_text_page
           (sampleBrowser true sampleCsvContent sampleDocument)
           (mkFile "umsatz.csv") "csv" sampleCsvContent).
  - reflexivity.
  - reflexivity.
  - discriminate.
  - reflexivity.
Defined.

Example readWithFileReader_text_sample :
  @readWithFileReader (sampleBrowser true sampleCsvContent sampleDocument)
    (mkFile "umsatz.csv") "csv"
  = Fulfilled [["Datum;Typ"; "1.1.;Kauf"]].
Proof. reflexivity. Qed.

Lemma readWithFileReader_pdf_pages_witness :
  exists read,
    @readWithFileReader (sampleBrowser true "" sampleDocument)
      (mkFile "depot.pdf") "pdf" = Fulfilled read
    /\ length read = 2%nat
    /\ forall pageIndex,
         (pageIndex < 2)%nat ->
         nth_error read pageIndex
         = Some (filter (fun item => (0 <? String.length item)%nat)
                   (map trim
                      (if (pageIndex + 1 =? 1)%nat
                       then [" Depot "; "  "; "Kauf"]
                       else ["Seite 2"; ""]))).
Proof.
  apply (@readWithFileReader_pdf_pages
           (sampleBrowser true "" sampleDocument) (mkFile "depot.pdf") ""
           sampleDocument
           (fun pageNumber =>
              if (pageNumber =? 1)%nat then [" Depot "; "  "; "Kauf"]
              else ["Seite 2"; ""])).
  - reflexivity.
  - reflexivity.
  - reflexivity.
  - reflexivity.
  - intros pageNumber _. reflexivity.
Defined.

Example readWithFileReader_pdf_sample :
  @readWithFileReader (sampleBrowser true "" sampleDocument)
    (mkFile "depot.pdf") "pdf"
  = Fulfilled [["Depot"; "Kauf"]; ["Seite 2"]].
Proof. reflexivity. Qed.

Lemma readWithFileReader_pdf_page_missing_witness :
  @readWithFileReader (sampleBrowser true "" stalledDocument)
    (mkFile "depot.pdf") "pdf" = Pending.
Proof.
  apply (@readWithFileReader_pdf_page_missing
           (sampleBrowser true "" stalledDocument) (mkFile "depot.pdf") ""
           stalledDocument 2).
  - reflexivity.
  - reflexivity.
  - reflexivity.
  - reflexivity.
  - simpl. lia.
  - simpl. discriminate.
Defined.

Lemma process_outside_browser_witness :
  @parseFile
    (readingThrough (sampleBrowser false sampleCsvContent sampleDocument)
       (sampleEnvironment (registryWith (Return threeActivities)) samplePages))
    (mkFile "umsatz.csv") = Fulfilled (mkParsedFile [] "csv")
  /\ @process
       (readingThrough (sampleBrowser false sampleCsvContent sampleDocument)
          (sampleEnvironment (registryWith (Return threeActivities))
                             samplePages))
       (mkFile "umsatz.csv") = Pending.
Proof.
  destruct (process_outside_browser
              (sampleBrowser false sampleCsvContent sampleDocument)
              (sampleEnvironment (registryWith (Return threeActivities))
                                 samplePages)
              (mkFile "umsatz.csv"))
    as [Hfulfils [_ Hpending]].
  - reflexivity.
  - split; [| exact Hpending].
    apply (Hfulfils (StringResult sampleCsvContent)). reflexivity.
Defined.

(** The same platform and a PDF whose pages would all load: no page is
    handed on. *)
Example parseFile_outside_browser_pdf :
  @parseFile
    (readingThrough (sampleBrowser false "" sampleDocument)
       (sampleEnvironment (registryWith (Return threeActivities)) samplePages))
    (mkFile "depot.pdf") = Fulfilled (mkParsedFile [] "pdf").
Proof. reflexivity. Qed.

(** In a browser the same file is read, selected and parsed. *)
Example process_inside_browser :
  @process
    (readingThrough (sampleBrowser true sampleCsvContent sampleDocument)
       (sampleEnvironment (registryWith (Return threeActivities)) samplePages))
    (mkFile "umsatz.csv")
  = Fulfilled (Outcome.make "umsatz.csv" (ResultObject threeActivities)
                            0%Z false).
Proof. reflexivity. Qed.
